(** * LLM-EvalSys: the dispatch-and-judge pipeline

    A shallow embedding of the judging and generation stages of the
    repository:

    - [src/evaluation/evaluator.py]      (module [Evaluator])
    - [src/evaluation/json_validator.py] (module [JsonValidator])
    - [src/evaluation/metrics.py]        (module [Metrics])
    - [src/generation/response_generator.py] (module [ResponseGenerator])
    - [src/evaluation/workflow.py]       (module [Workflow])
    - [src/data/storage.py], [src/data/excel_processor.py]
                                         (modules [Storage], [ExcelProcessor])

    Python strings are modelled as [string] (sequences of code points below
    256), Python integers as [Z], dictionaries with string keys as
    [gmap string _], lists as [list].  External services (the judging model,
    the answer-generation endpoint, numpy) are parameters of the sections
    that use them. *)

From Stdlib Require Import ZArith QArith Qround String Ascii List Bool Lia Lqa.
From Stdlib Require Import DecimalString DecimalPos DecimalZ.
From stdpp Require Import gmap strings list fin_maps.

Open Scope string_scope.
Open Scope Z_scope.

(* ===================================================================== *)
(** * Python string primitives *)
(* ===================================================================== *)

Module PyStr.

(** [str.isspace] on the code points below 256: TAB..CR, FS..US, space,
    NEL (0x85) and NBSP (0xA0). *)
Definition is_space (c : ascii) : bool :=
  let n := nat_of_ascii c in
  ((9 <=? n) && (n <=? 13) || (28 <=? n) && (n <=? 32)
   || (n =? 133) || (n =? 160))%nat.

Fixpoint lstrip (s : string) : string :=
  match s with
  | String c s' => if is_space c then lstrip s' else s
  | EmptyString => EmptyString
  end.

Fixpoint rstrip (s : string) : string :=
  match s with
  | EmptyString => EmptyString
  | String c s' =>
      match rstrip s' with
      | EmptyString => if is_space c then EmptyString else String c EmptyString
      | r => String c r
      end
  end.

(** [s.strip()] *)
Definition strip (s : string) : string := rstrip (lstrip s).

(** [s.startswith(p)] *)
Definition startswith (s p : string) : bool := String.prefix p s.

(** [needle in s] *)
Fixpoint contains (needle s : string) : bool :=
  String.prefix needle s ||
  match s with
  | EmptyString => false
  | String _ s' => contains needle s'
  end.

(** [s.split(sep)] for a one-character separator: never the empty list. *)
Fixpoint split (sep : ascii) (s : string) : list string :=
  match s with
  | EmptyString => [EmptyString]
  | String c s' =>
      if Ascii.eqb c sep then EmptyString :: split sep s'
      else match split sep s' with
           | h :: t => String c h :: t
           | [] => [String c EmptyString]
           end
  end.

(** [sep.join(l)] *)
Definition join (sep : string) (l : list string) : string :=
  String.concat sep l.

(** [s.replace(old, new)] for a non-empty [old]: occurrences are found left
    to right and do not overlap; [skip] counts the characters of the
    occurrence being replaced that are still to be dropped. *)
Fixpoint replace_from (old new : string) (skip : nat) (s : string) : string :=
  match s with
  | EmptyString => EmptyString
  | String c s' =>
      match skip with
      | S k => replace_from old new k s'
      | O =>
          if String.prefix old s
          then new +:+ replace_from old new (String.length old - 1) s'
          else String c (replace_from old new O s')
      end
  end.

Definition replace (old new s : string) : string := replace_from old new O s.

(** Python exceptions that the modelled code raises or catches. *)
Inductive exn : Type :=
| IndexError
| ValueError
| OtherError (msg : string).

Inductive result (A : Type) : Type :=
| Ok (a : A)
| Raise (e : exn).
Arguments Ok {A} a.
Arguments Raise {A} e.

Definition bind {A B} (r : result A) (k : A -> result B) : result B :=
  match r with
  | Ok a => k a
  | Raise e => Raise e
  end.

(** [l[i]] *)
Definition index {A} (l : list A) (i : nat) : result A :=
  match l !! i with
  | Some a => Ok a
  | None => Raise IndexError
  end.

Definition is_digit (c : ascii) : bool :=
  let n := nat_of_ascii c in ((48 <=? n) && (n <=? 57))%nat.

Definition digit_val (c : ascii) : Z := Z.of_nat (nat_of_ascii c - 48).

(** The digit part of a decimal literal accepted by [int]: digits, with
    single underscores allowed between two digits. [prev] tells whether the
    previous character was a digit. *)
Fixpoint parse_digits (acc : Z) (prev : bool) (s : string) : option Z :=
  match s with
  | EmptyString => if prev then Some acc else None
  | String c s' =>
      if Ascii.eqb c "_"
      then (if prev then parse_digits acc false s' else None)
      else if is_digit c
           then parse_digits (10 * acc + digit_val c) true s'
           else None
  end.

(** [int(s)] in base 10: surrounding whitespace is ignored, one sign is
    allowed; anything else raises [ValueError].  The interpreter's optional
    limit on the number of digits is not modelled. *)
Definition int (s : string) : result Z :=
  let of_opt (o : option Z) (f : Z -> Z) :=
    match o with Some n => Ok (f n) | None => Raise ValueError end in
  match strip s with
  | EmptyString => Raise ValueError
  | String c t =>
      if Ascii.eqb c "-" then of_opt (parse_digits 0 false t) Z.opp
      else if Ascii.eqb c "+" then of_opt (parse_digits 0 false t) id
      else of_opt (parse_digits 0 false (String c t)) id
  end.



(** Every character of [s] satisfies [p]. *)
Fixpoint all_chars (p : ascii -> bool) (s : string) : bool :=
  match s with
  | EmptyString => true
  | String c s' => p c && all_chars p s'
  end.


(** [str(n)] for an integer. *)
Definition str_of_int (n : Z) : string :=
  NilEmpty.string_of_int (Z.to_int n).

End PyStr.

Notation "'let*' x ':=' r 'in' k" := (PyStr.bind r (fun x => k))
  (at level 10, x name, r at level 100, k at level 200).


(* ===================================================================== *)
(** * The judging model and its trace of calls *)
(* ===================================================================== *)

(** What one attempt of [bedrock.invoke_model] followed by the decoding of
    its body does: it yields the text of the response, or an exception is
    raised whose [str] is [error_message]. *)
Inductive outcome : Type :=
| Returned (text : string)
| Failed (error_message : string).

(** Observable events of the judging stage, in chronological order. *)
Inductive event : Type :=
| Invoke (model_id prompt : string)   (* bedrock.invoke_model is entered *)
| Done (o : outcome)                  (* ... and has returned or raised  *)
| Sleep (seconds : Z).                (* time.sleep                      *)

Definition trace := list event.

Definition is_invoke (e : event) : bool :=
  match e with Invoke _ _ => true | _ => false end.

(** The invocation attempts recorded in a trace. *)
Definition invocations (tr : trace) : list event := List.filter is_invoke tr.

Definition is_sleep (e : event) : bool :=
  match e with Sleep _ => true | _ => false end.

(** Number of judge-model calls entered and not yet finished after [tr]. *)
Fixpoint in_flight_from (n : Z) (tr : trace) : Z :=
  match tr with
  | [] => n
  | Invoke _ _ :: tr' => in_flight_from (n + 1) tr'
  | Done _ :: tr' => in_flight_from (n - 1) tr'
  | Sleep _ :: tr' => in_flight_from n tr'
  end.

Definition in_flight (tr : trace) : Z := in_flight_from 0 tr.

(** A trace in which every call is finished before anything else happens:
    [Invoke] is always directly followed by its [Done]. *)
Fixpoint sequential (tr : trace) : bool :=
  match tr with
  | [] => true
  | Invoke _ _ :: Done _ :: tr' => sequential tr'
  | Sleep _ :: tr' => sequential tr'
  | _ => false
  end.

(** Largest number of calls in flight over all the prefixes of [tr]. *)
Fixpoint peak_from (n : Z) (tr : trace) : Z :=
  match tr with
  | [] => n
  | e :: tr' => Z.max n (peak_from (in_flight_from n [e]) tr')
  end.

Definition peak_in_flight (tr : trace) : Z := peak_from 0 tr.

(* ===================================================================== *)
(** * evaluation/evaluator.py *)
(* ===================================================================== *)

Module Evaluator.
Import PyStr.

Definition LF : ascii := ascii_of_nat 10.

Definition BEDROCK_DEFAULT_MODEL : string :=
  "anthropic.claude-3-sonnet-20240229-v1:0".
Definition BEDROCK_FALLBACK_MODEL : string := "anthropic.claude-instant-v1".

(** The dictionary returned by [call_bedrock_model]; [raw_result] is the
    key that only the parsing-error branch sets. *)
Record evaluation : Type := Evaluation {
  accuracy : Z;
  completeness : Z;
  relevance : Z;
  justification : string;
  raw_result : option string
}.

Definition build_judging_prompt (question generated reference : string)
  : gmap string string :=
  <["question" := question]>
    (<["generated" := generated]> (<["reference" := reference]> ∅)).

(** [prompt_inputs.get(key, "").strip() or placeholder] *)
Definition prompt_field (prompt_inputs : gmap string string)
    (key placeholder : string) : string :=
  match strip (default "" (prompt_inputs !! key)) with
  | EmptyString => placeholder
  | v => v
  end.

Definition prompt_text (question generated reference : string) : string :=
  "Evaluate the generated answer compared to the expected answer.

Question: " +:+ question +:+ "

Generated answer: " +:+ generated +:+ "

Expected answer: " +:+ reference +:+ "

Provide evaluation scores with:
- Accuracy (from 0 to 10): How factually correct the generated answer is compared to the expected answer
- Completeness (from 0 to 10): How thoroughly the generated answer covers all aspects of the expected answer
- Relevance (from 0 to 10): How is the generated answer relative to the specific question asked. Do they have the same topic? Does the answer address the same aspects of the question's topic?

Response format:
Accuracy score: [0-10]
Completeness score: [0-10]
Relevance score: [0-10]
Justification: [Detailed explanation]".

(** Lines 40-61: the prompt built from the three inputs. *)
Definition prompt_of (prompt_inputs : gmap string string) : string :=
  let question :=
    prompt_field prompt_inputs "question" "Question not provided" in
  let generated :=
    prompt_field prompt_inputs "generated" "Generated answer not provided" in
  let reference :=
    prompt_field prompt_inputs "reference" "Expected answer not provided" in
  prompt_text question generated reference.

(** ** The scoring parser (lines 113-137) *)

(** [int(score_line.split(":")[1].strip())] *)
Definition score_of_line (score_line : string) : result Z :=
  let* field := index (split ":" score_line) 1 in
  int (strip field).

(** [result.split("\n")] *)
Definition lines_of (result : string) : list string := split LF result.

(** The first line that starts with [prefix], if there is one. *)
Definition first_match (lines : list string) (prefix : string)
  : option string :=
  List.find (fun line => startswith line prefix) lines.

(** [next((line for line in lines if line.startswith(prefix)), "")] *)
Definition first_line (lines : list string) (prefix : string) : string :=
  default "" (first_match lines prefix).

(** [[line for line in lines if line.startswith("Justification")]] *)
Definition justification_lines (lines : list string) : list string :=
  List.filter (fun line => startswith line "Justification") lines.

Definition extract_score (lines : list string) (prefix : string) : result Z :=
  let body :=
    let score_line := first_line lines prefix in
    match score_line with
    | EmptyString => Ok 0
    | _ => score_of_line score_line
    end in
  match body with
  | Ok n => Ok n
  | Raise IndexError | Raise ValueError => Ok 0
  | Raise e => Raise e
  end.

Definition justification_of (lines : list string) : string :=
  let justification_lines := justification_lines lines in
  match justification_lines with
  | [] => ""
  | _ => strip (replace "Justification:" "" (join " " justification_lines))
  end.

(** The body of the inner [try] at lines 113-137. *)
Definition parse_evaluation (result : string) : PyStr.result evaluation :=
  let lines := lines_of result in
  let* accuracy := extract_score lines "Accuracy score" in
  let* completeness := extract_score lines "Completeness score" in
  let* relevance := extract_score lines "Relevance score" in
  Ok (Evaluation accuracy completeness relevance (justification_of lines) None).

Definition zero_score (justification : string) (raw : option string)
  : evaluation := Evaluation 0 0 0 justification raw.

(** ** The judge invoker (lines 30-111 and 139-156) *)

(** The error class that triggers the model fallback (line 94). *)
Definition is_inference_profile_error (error_message : string) : bool :=
  contains "ValidationException" error_message
  && contains "inference profile" error_message.

(** How the [while] loop of lines 66-102 is left. *)
Inductive loop_exit : Type :=
| Broke (result : string)           (* [break] with the response text     *)
| Exhausted                         (* condition false, [result] is None   *)
| Reraised (error_message : string) (* [raise] at line 102                 *)
| OutOfFuel.                        (* artefact of the model, never reached *)

Section Invoker.

(** The judging endpoint: the outcome of the attempt made with [model_id]
    on [prompt] after the events of the history. *)
Variable bedrock : trace -> string -> string -> outcome.

(** [str(e)] for an exception caught at line 139. *)
Variable exn_str : exn -> string.

Fixpoint retry_loop (fuel : nat) (max_retries retries : Z)
    (model_id prompt : string) (tr : trace) : trace * loop_exit :=
  match fuel with
  | O => (tr, OutOfFuel)
  | S fuel' =>
      if retries <? max_retries then
        let o := bedrock tr model_id prompt in
        let tr := (tr ++ [Invoke model_id prompt; Done o])%list in
        match o with
        | Returned text => (tr, Broke text)
        | Failed error_message =>
            let retries := retries + 1 in
            if is_inference_profile_error error_message
            then retry_loop fuel' max_retries retries
                   BEDROCK_FALLBACK_MODEL prompt tr
            else if retries <? max_retries
                 then retry_loop fuel' max_retries retries model_id prompt
                        (tr ++ [Sleep 2])%list
                 else (tr, Reraised error_message)
        end
      else (tr, Exhausted)
  end.

(** [max_retries] defaults to 3 in the source.  Creating the client and
    writing to the log are taken not to raise. *)
Definition call_bedrock_model (prompt_inputs : gmap string string)
    (max_retries : Z) (tr : trace) : trace * evaluation :=
  let model_id := BEDROCK_DEFAULT_MODEL in
  let prompt := prompt_of prompt_inputs in
  let '(tr, exit) :=
    retry_loop (S (Z.to_nat max_retries)) max_retries 0 model_id prompt tr in
  match exit with
  | Broke EmptyString | Exhausted | OutOfFuel =>
      (tr, zero_score "Failed to get response from model" None)
  | Broke result =>
      match parse_evaluation result with
      | Ok ev => (tr, ev)
      | Raise parsing_error =>
          (tr, zero_score ("Parsing error: " +:+ exn_str parsing_error)
                 (Some result))
      end
  | Reraised e => (tr, zero_score ("Failed to evaluate: " +:+ e) None)
  end.

End Invoker.

End Evaluator.


(* ===================================================================== *)
(** * JSON values as Python sees them *)
(* ===================================================================== *)

Module Py.
Import PyStr.

#[local] Unset Elimination Schemes.
Inductive value : Type :=
| VNone
| VBool (b : bool)
| VInt (n : Z)
| VFloat (q : Q)
| VStr (s : string)
| VList (l : list value)
| VDict (d : gmap string value).
#[local] Set Elimination Schemes.

(** Truth value of an object, as used by [or] and [not]. *)
Definition truthy (v : value) : bool :=
  match v with
  | VNone => false
  | VBool b => b
  | VInt n => negb (n =? 0)
  | VFloat q => negb (Qeq_bool q 0)
  | VStr s => negb (String.eqb s "")
  | VList l => match l with [] => false | _ => true end
  | VDict d => match map_to_list d with [] => false | _ => true end
  end.

(** [a or b] *)
Definition or_else (a b : value) : value := if truthy a then a else b.

Section Str.

(** [repr] of the values whose rendering the pipeline never inspects
    (floats, lists and dictionaries). *)
Variable repr : value -> string.

(** [str(v)] *)
Definition str (v : value) : string :=
  match v with
  | VStr s => s
  | VNone => "None"
  | VBool true => "True"
  | VBool false => "False"
  | VInt n => str_of_int n
  | _ => repr v
  end.

(** [str(d.get(key, "") or "").strip()] *)
Definition text_field (d : gmap string value) (key : string) : string :=
  strip (str (or_else (default (VStr "") (d !! key)) (VStr ""))).

End Str.

End Py.

(* ===================================================================== *)
(** * evaluation/json_validator.py *)
(* ===================================================================== *)

Module JsonValidator.
Import PyStr.

Record scores : Type := Scores {
  accuracy : Z;
  completeness : Z;
  relevance : Z;
  justification : string
}.

(** One element of the output artifact. *)
Record result_entry : Type := ResultEntry {
  question : string;
  expected_answer : string;
  generated_answer : string;
  text_response_evaluation : scores
}.

Definition TIMEOUT_MARKER : string := "The model took too long to respond".

Definition SKIPPED_JUSTIFICATION : string :=
  "Skipped due to timeout error in the response".

Section Judging.

Variable bedrock : trace -> string -> string -> outcome.
Variable exn_str : exn -> string.
Variable repr : Py.value -> string.

(** [write_json_to_s3(bucket_name, output_s3_key, results)] *)
Variable write_json_to_s3 : list result_entry -> bool.

Definition question_of (entry : gmap string Py.value) : string :=
  Py.text_field repr entry "Question".

Definition expected_answer_of (entry : gmap string Py.value) : string :=
  Py.text_field repr entry "Expected Answer".

(** Lines 37-41: the text of the generated answer, whether it is stored as
    a dictionary or as a bare value. *)
Definition text_response_of (entry : gmap string Py.value) : string :=
  match default (Py.VDict ∅) (entry !! "Generated Answer") with
  | Py.VDict generated_answer =>
      Py.text_field repr generated_answer "text_response"
  | generated_answer =>
      strip (Py.str repr (Py.or_else generated_answer (Py.VStr "")))
  end.

(** [r] is a record for [entry]: it carries its question, its expected
    answer and the text of its generated answer. *)
Definition record_of (entry : gmap string Py.value) (r : result_entry)
  : Prop :=
  question r = question_of entry
  /\ expected_answer r = expected_answer_of entry
  /\ generated_answer r = text_response_of entry.

(** The guard of line 32: entries failing it are skipped. *)
Definition judged (entry : gmap string Py.value) : bool :=
  negb (String.eqb (question_of entry) "")
  && negb (String.eqb (expected_answer_of entry) "").

(** Lines 43-79: the evaluation of one entry that passed the guard. *)
Definition judge (question expected_answer text_response : string)
    (tr : trace) : trace * scores :=
  if contains TIMEOUT_MARKER text_response
  then (tr, Scores 0 0 0 SKIPPED_JUSTIFICATION)
  else
    let prompt_inputs :=
      Evaluator.build_judging_prompt question text_response expected_answer in
    let '(tr, evaluation_result) :=
      Evaluator.call_bedrock_model bedrock exn_str prompt_inputs 3 tr in
    (tr, Scores (Evaluator.accuracy evaluation_result)
                (Evaluator.completeness evaluation_result)
                (Evaluator.relevance evaluation_result)
                (Evaluator.justification evaluation_result)).

(** One iteration of the loop of lines 26-81; [None] is [continue]. *)
Definition process_entry (entry : gmap string Py.value) (tr : trace)
  : trace * option result_entry :=
  let question := question_of entry in
  let expected_answer := expected_answer_of entry in
  if negb (judged entry) then (tr, None)
  else
    let text_response := text_response_of entry in
    let '(tr, evaluation) := judge question expected_answer text_response tr in
    (tr, Some (ResultEntry question expected_answer text_response evaluation)).

(** The [for] loop of line 26 with its accumulator [results]. *)
Fixpoint judge_entries (data : list (gmap string Py.value)) (tr : trace)
    (results : list result_entry) : trace * list result_entry :=
  match data with
  | [] => (tr, results)
  | entry :: data' =>
      let '(tr, r) := process_entry entry tr in
      judge_entries data' tr
        (match r with
         | Some result_entry => (results ++ [result_entry])%list
         | None => results
         end)
  end.

(** What a run of [process_json_data] leaves behind. *)
Record run : Type := Run {
  events : trace;                          (* judge-model calls made     *)
  written : option (list result_entry);    (* the artifact handed to S3  *)
  returned : bool
}.

(** [data] is what [read_json_from_s3] returned.  The summary statistics
    computed at line 93 are only logged and are left out. *)
Definition process_json_data (data : option (list (gmap string Py.value)))
  : run :=
  match data with
  | None | Some [] => Run [] None false
  | Some data =>
      let '(tr, results) := judge_entries data [] [] in
      if write_json_to_s3 results
      then Run tr (Some results) true
      else Run tr (Some results) false
  end.

End Judging.

End JsonValidator.

(* ===================================================================== *)
(** * evaluation/metrics.py *)
(* ===================================================================== *)

Module Metrics.
Import PyStr.

Definition SKIP_MARKER : string := "Skipped due to timeout".

(** Floats are read as exact rationals.  [round(x)] goes to the nearest
    integer, ties to the even one. *)
Definition py_round (q : Q) : Z :=
  let f := Qfloor q in
  match Qcompare (q - inject_Z f) (1 # 2) with
  | Lt => f
  | Gt => f + 1
  | Eq => if Z.even f then f else f + 1
  end.

(** Lines 80-82: [bins[i] = sum(1 for s in scores if round(s) == i)] for
    [i] in [range(11)], where [rounded] lists [round(s)] for the scores
    ([round] leaves an integer score as it is). *)
Definition bins_of (rounded : list Z) : gmap Z nat :=
  fold_left
    (fun bins i =>
       <[i := length (List.filter (fun s => s =? i) rounded)]> bins)
    (seqZ 0 11) ∅.

(** Line 23: the record was not skipped for a timeout. *)
Definition evaluated (result : JsonValidator.result_entry) : bool :=
  negb (contains SKIP_MARKER
          (JsonValidator.justification
             (JsonValidator.text_response_evaluation result))).

(** [eval_data.get("accuracy", 0)] and its two siblings, for a record. *)
Definition accuracy_of (result : JsonValidator.result_entry) : Z :=
  JsonValidator.accuracy (JsonValidator.text_response_evaluation result).
Definition completeness_of (result : JsonValidator.result_entry) : Z :=
  JsonValidator.completeness (JsonValidator.text_response_evaluation result).
Definition relevance_of (result : JsonValidator.result_entry) : Z :=
  JsonValidator.relevance (JsonValidator.text_response_evaluation result).

(** [(a + c + r) / 3] *)
Definition combined_score (a c r : Z) : Q := (inject_Z (a + c + r) / 3)%Q.

(** Lines 21-26: the three score lists, built by appending in one pass. *)
Fixpoint collect (evaluation_results : list JsonValidator.result_entry)
    (acc : list Z * list Z * list Z) : list Z * list Z * list Z :=
  match evaluation_results with
  | [] => acc
  | result :: rest =>
      let '(accuracy_scores, completeness_scores, relevance_scores) := acc in
      if evaluated result
      then collect rest
             ((accuracy_scores ++ [accuracy_of result])%list,
              (completeness_scores ++ [completeness_of result])%list,
              (relevance_scores ++ [relevance_of result])%list)
      else collect rest acc
  end.

(** Line 61: [(a + c + r) / 3] over [zip] of the three lists. *)
Definition combined_of (accuracy_scores completeness_scores relevance_scores
    : list Z) : list Q :=
  List.map (fun '(a, (c, r)) => combined_score a c r)
    (List.combine accuracy_scores
       (List.combine completeness_scores relevance_scores)).

Section Aggregator.

(** numpy: the type of its floats and the five reductions that are used. *)
Variable float : Type.
Variables np_mean np_median np_min np_max np_std : list Q -> float.

Record stats : Type := Stats {
  mean : float; median : float; min : float; max : float; std : float
}.

Record summary : Type := Summary {
  count : nat;
  metrics : gmap string stats;
  distribution : gmap string (gmap Z nat)
}.

Definition stats_of (scores : list Q) : stats :=
  Stats (np_mean scores) (np_median scores) (np_min scores)
        (np_max scores) (np_std scores).

Definition combined_scores
    (evaluation_results : list JsonValidator.result_entry) : list Q :=
  let '(accuracy_scores, completeness_scores, relevance_scores) :=
    collect evaluation_results ([], [], []) in
  combined_of accuracy_scores completeness_scores relevance_scores.

Definition calculate_metrics
    (evaluation_results : list JsonValidator.result_entry) : summary :=
  match evaluation_results with
  | [] => Summary 0 ∅ ∅
  | _ =>
      let '(accuracy_scores, completeness_scores, relevance_scores) :=
        collect evaluation_results ([], [], []) in
      match accuracy_scores with
      | [] => Summary 0 ∅ ∅
      | _ =>
          let combined_scores :=
            combined_of accuracy_scores completeness_scores relevance_scores in
          let metrics : gmap string stats :=
            <["combined" := stats_of combined_scores]>
              (<["relevance" := stats_of (List.map inject_Z relevance_scores)]>
                 (<["completeness" :=
                      stats_of (List.map inject_Z completeness_scores)]>
                    (<["accuracy" :=
                         stats_of (List.map inject_Z accuracy_scores)]> ∅))) in
          let distribution : gmap string (gmap Z nat) :=
            <["combined" := bins_of (List.map py_round combined_scores)]>
              (<["relevance" := bins_of relevance_scores]>
                 (<["completeness" := bins_of completeness_scores]>
                    (<["accuracy" := bins_of accuracy_scores]> ∅))) in
          Summary (length accuracy_scores) metrics distribution
      end
  end.

End Aggregator.

End Metrics.

(* ===================================================================== *)
(** * generation/response_generator.py *)
(* ===================================================================== *)

Module ResponseGenerator.
Import PyStr.

Definition TIMEOUT_MESSAGE : string :=
  "The model took too long to respond (timeout after 30 seconds). re-run the script.".

(** [s.split(sep)[0]]: the text before the first occurrence of [sep]. *)
Fixpoint before (sep s : string) : string :=
  if String.prefix sep s then EmptyString
  else match s with
       | EmptyString => EmptyString
       | String c s' => String c (before sep s')
       end.

(** The Lambda call of lines 23-45: the decoded payload, or an exception. *)
Inductive lambda_reply : Type :=
| Payload (raw_answer : string)
| LambdaRaised (message : string).

(** What lines 60-65 find in the payload read as JSON. *)
Inductive error_lookup : Type :=
| NotJson                         (* json.JSONDecodeError                  *)
| NoErrorMessage                  (* parsed, no "errorMessage" member      *)
| ErrorMessage (text : string)    (* str(error_data['errorMessage'])       *)
| LookupRaised (message : string). (* any other exception of these lines   *)

(** The answer of a finished future, or the exception [result()] raises. *)
Inductive future_result : Type :=
| Completed (raw_answer extracted_answer : string)
| Excepted (message : string).

Section Generation.

(** The generation endpoint, per dispatched item. *)
Variable invoke_lambda : nat -> Py.value -> lambda_reply.
Variable json_error : string -> error_lookup.

(** A fault of the worker that runs the task of item [i], outside what
    [invoke_retrieval_lambda] itself catches. *)
Variable worker_fault : nat -> option string.

(** [write_json_to_s3(bucket_name, input_json_key, input_data)] *)
Variable write_json_to_s3 : list (gmap string Py.value) -> bool.

Definition invoke_retrieval_lambda (i : nat) (question : Py.value)
  : string * string :=
  match invoke_lambda i question with
  | LambdaRaised e =>
      let error_message := "Error invoking Lambda: " +:+ e in
      (error_message, error_message)
  | Payload raw_answer =>
      if contains "errorType" raw_answer
         && contains "Sandbox.Timedout" raw_answer
      then (TIMEOUT_MESSAGE, TIMEOUT_MESSAGE)
      else
        match raw_answer with
        | EmptyString => (raw_answer, EmptyString)
        | _ =>
            let extracted_answer :=
              if contains "<sessionId>" raw_answer
              then strip (before "<sessionId>" raw_answer)
              else strip raw_answer in
            if contains "errorType" raw_answer
               && contains "errorMessage" raw_answer
            then
              match json_error raw_answer with
              | ErrorMessage text =>
                  let error_message := "Error: " +:+ text in
                  (error_message, error_message)
              | LookupRaised e =>
                  let error_message := "Error invoking Lambda: " +:+ e in
                  (error_message, error_message)
              | NotJson | NoErrorMessage => (raw_answer, extracted_answer)
              end
            else (raw_answer, extracted_answer)
        end
  end.

(** [future.result()] for the task submitted for item [i]. *)
Definition result_of (i : nat) (question : Py.value) : future_result :=
  match worker_fault i with
  | Some e => Excepted e
  | None =>
      let '(raw_answer, extracted_answer) :=
        invoke_retrieval_lambda i question in
      Completed raw_answer extracted_answer
  end.

Definition generated_answer (raw_response text_response : string)
  : Py.value :=
  Py.VDict (<["raw_response" := Py.VStr raw_response]>
              (<["text_response" := Py.VStr text_response]> ∅)).

(** Lines 104-113: the indices for which a task is submitted, in order. *)
Fixpoint submitted_from (i : nat) (input_data : list (gmap string Py.value))
  : list nat :=
  match input_data with
  | [] => []
  | item :: rest =>
      match item !! "Question" with
      | Some _ => i :: submitted_from (S i) rest
      | None => submitted_from (S i) rest
      end
  end.

Definition submitted (input_data : list (gmap string Py.value)) : list nat :=
  submitted_from 0 input_data.

(** The dictionary stored for item [i] at lines 120-123 or 130-133. *)
Definition answer_for (original : list (gmap string Py.value)) (i : nat)
  : Py.value :=
  let question :=
    default Py.VNone (original !! i ≫= (fun item => item !! "Question")) in
  match result_of i question with
  | Completed raw_answer extracted_answer =>
      generated_answer raw_answer extracted_answer
  | Excepted e => generated_answer ("Error: " +:+ e) ""
  end.

(** Lines 116-133: the futures are visited in completion order and each
    answer is stored into the shared list at the index of its item. *)
Fixpoint collect (original : list (gmap string Py.value)) (order : list nat)
    (input_data : list (gmap string Py.value))
  : list (gmap string Py.value) :=
  match order with
  | [] => input_data
  | i :: order' =>
      collect original order'
        (alter (insert "Generated Answer" (answer_for original i)) i
           input_data)
  end.

(** [input_data] is what [read_json_from_s3] returned, [order] the order in
    which [as_completed] hands the futures back.  The result pairs the
    returned boolean with the list handed to [write_json_to_s3]. *)
Definition process_input_json (input_data : option (list (gmap string Py.value)))
    (order : list nat) : bool * option (list (gmap string Py.value)) :=
  match input_data with
  | None | Some [] => (false, None)
  | Some input_data =>
      let input_data := collect input_data order input_data in
      (write_json_to_s3 input_data, Some input_data)
  end.

End Generation.

End ResponseGenerator.

(* ===================================================================== *)
(** * Sample inputs *)
(* ===================================================================== *)

Module Samples.

(** A judging model that always answers with the same scores. *)
Definition steady_judge (h : trace) (model_id prompt : string) : outcome :=
  Returned "Accuracy score: 9
Completeness score: 8
Relevance score: 10
Justification: close match".

Definition sample_entry (question expected generated : string)
  : gmap string Py.value :=
  <["Question" := Py.VStr question]>
    (<["Expected Answer" := Py.VStr expected]>
       (<["Generated Answer" :=
            Py.VDict (<["raw_response" := Py.VStr generated]>
                        (<["text_response" := Py.VStr generated]> ∅))]> ∅)).

(** Three items, the second without a question, the task of the first
    failing; the third one completes first. *)
Definition sample_items : list (gmap string Py.value) :=
  [ <["Question" := Py.VStr "Q1"]> ∅;
    <["Expected Answer" := Py.VStr "nothing to ask"]> ∅;
    <["Question" := Py.VStr "Q3"]> ∅ ].

Definition sample_lambda (i : nat) (question : Py.value) : ResponseGenerator.lambda_reply :=
  ResponseGenerator.Payload "Rome<sessionId>42".

Definition sample_fault (i : nat) : option string :=
  match i with O => Some "worker lost" | _ => None end.

End Samples.

(* ===================================================================== *)
(** * More Python primitives *)
(* ===================================================================== *)

Module PyMore.
Import PyStr.

(** [s.endswith(suffix)] *)
Fixpoint endswith (s suffix : string) : bool :=
  String.eqb s suffix ||
  match s with
  | EmptyString => false
  | String _ s' => endswith s' suffix
  end.

(** [s[:n]] and [s[n:]] for [0 <= n]. *)
Fixpoint take (n : nat) (s : string) : string :=
  match n, s with
  | S n', String c s' => String c (take n' s')
  | _, _ => EmptyString
  end.

Fixpoint drop (n : nat) (s : string) : string :=
  match n, s with
  | S n', String _ s' => drop n' s'
  | _, _ => s
  end.

(** [s.rfind(c)] for a one-character [c]: the index of its last occurrence,
    or -1.  [i] is the index of the head of [s], [best] the last occurrence
    seen so far. *)
Fixpoint rfind_from (c : ascii) (i best : Z) (s : string) : Z :=
  match s with
  | EmptyString => best
  | String x s' => rfind_from c (i + 1) (if Ascii.eqb x c then i else best) s'
  end.

Definition rfind (c : ascii) (s : string) : Z := rfind_from c 0 (-1) s.

(** The loop of [genericpath._splitext] that skips the leading dots of the
    file name: is one of the [count] characters from [filenameIndex] on
    something else than a dot? *)
Fixpoint has_non_dot (count filenameIndex : nat) (p : string) : bool :=
  match count with
  | O => false
  | S count' =>
      match String.get filenameIndex p with
      | Some c =>
          if Ascii.eqb c "." then has_non_dot count' (S filenameIndex) p
          else true
      | None => true
      end
  end.

(** [os.path.splitext(p)] of [posixpath]: the extension starts at the last
    dot of the last path component, leading dots of that component apart. *)
Definition splitext (p : string) : string * string :=
  let sepIndex := rfind "/" p in
  let dotIndex := rfind "." p in
  if (sepIndex <? dotIndex)
     && has_non_dot (Z.to_nat (dotIndex - (sepIndex + 1)))
          (Z.to_nat (sepIndex + 1)) p
  then (take (Z.to_nat dotIndex) p, drop (Z.to_nat dotIndex) p)
  else (p, EmptyString).


End PyMore.

(* ===================================================================== *)
(** * evaluation/json_validator.py: the summary report *)
(* ===================================================================== *)

Module SummaryStatistics.
Import PyStr PyMore.


(** ["Skipped due to timeout" in
     entry.get("text_response_evaluation", {}).get("justification", "")] *)
Definition is_timeout (entry : JsonValidator.result_entry) : bool :=
  contains "Skipped due to timeout"
    (JsonValidator.justification
       (JsonValidator.text_response_evaluation entry)).





End SummaryStatistics.

(* ===================================================================== *)
(** * evaluation/metrics.py: the descriptive bands *)
(* ===================================================================== *)

Module ScoreLevel.

(** [score] is a float, read as an exact rational. *)
Definition get_score_level (score : Q) : string :=
  if Qle_bool 9 score then "Excellent"
  else if Qle_bool 7 score then "Good"
  else if Qle_bool 5 score then "Average"
  else if Qle_bool 3 score then "Below Average"
  else "Poor".

(** The bands from the lowest to the highest. *)
Definition rank (level : string) : nat :=
  if String.eqb level "Excellent" then 4
  else if String.eqb level "Good" then 3
  else if String.eqb level "Average" then 2
  else if String.eqb level "Below Average" then 1
  else 0.

End ScoreLevel.

(* ===================================================================== *)
(** * data/storage.py, data/excel_processor.py: the keys of the artifacts *)
(* ===================================================================== *)

Module Storage.
Import PyStr PyMore.

Definition get_output_json_path (input_json_key : string) : string :=
  replace "_input.json" "_output.json" input_json_key.

(** Lines 58-59 of [convert_excel_to_json]: the key under which the
    converted records are written. *)
Definition converted_key (file_key : string) : string :=
  fst (splitext file_key) +:+ "_input.json".


Section CreateOutputs.

(** [s3_client.put_object] for the key, after the puts already made:
    [false] when it raises. *)
Variable put_object : list string -> string -> bool.





End CreateOutputs.


End Storage.

(* ===================================================================== *)
(** * evaluation/workflow.py *)
(* ===================================================================== *)

Module Workflow.
Import PyStr PyMore.

Definition not_dot (c : ascii) : bool := negb (Ascii.eqb c ".").

(** Lines 101-103: the key of the record set derived from the key of the
    spreadsheet. *)
Definition input_json_key_of (file_key : string) : string :=
  let input_json_key :=
    replace ".xls" "_input.json" (replace ".xlsx" "_input.json" file_key) in
  if negb (endswith input_json_key "_input.json")
  then fst (splitext file_key) +:+ "_input.json"
  else input_json_key.

(** The calls that [run_etl_workflow] makes to the three stages. *)
Inductive stage_call : Type :=
| Convert (bucket_name file_key : string)
| Generate (bucket_name input_json_key : string) (max_workers : Z)
    (lambda_function_name : option string)
| Evaluate (bucket_name input_json_key : string).

Section Run.

(** What a stage returns when it is called after the calls of the
    history. *)
Variable stage : list stage_call -> stage_call -> bool.

(** [n not in skip_steps] *)
Definition not_skipped (n : Z) (skip_steps : list Z) : bool :=
  negb (List.existsb (Z.eqb n) skip_steps).

(** [skip_steps = None] is the empty list.  Logging and the creation of the
    temporary directory are left out. *)
Definition run_etl_workflow (bucket_name file_key : string) (max_workers : Z)
    (skip_steps : option (list Z)) (lambda_function_name : option string)
  : list stage_call * bool :=
  let skip_steps := default [] skip_steps in
  let step1 :=
    if not_skipped 1 skip_steps
    then let call := Convert bucket_name file_key in ([call], stage [] call)
    else ([], true) in
  if negb (snd step1) then (fst step1, false)
  else
    let input_json_key := input_json_key_of file_key in
    let step2 :=
      if not_skipped 2 skip_steps
      then let call :=
             Generate bucket_name input_json_key max_workers
               lambda_function_name in
           ((fst step1 ++ [call])%list, stage (fst step1) call)
      else (fst step1, true) in
    if negb (snd step2) then (fst step2, false)
    else
      let step3 :=
        if not_skipped 3 skip_steps
        then let call := Evaluate bucket_name input_json_key in
             ((fst step2 ++ [call])%list, stage (fst step2) call)
        else (fst step2, true) in
      if negb (snd step3) then (fst step3, false)
      else (fst step3, true).

End Run.

(** The stages that are not skipped, in the order of the workflow. *)
Definition planned (bucket_name file_key : string) (max_workers : Z)
    (skip_steps : list Z) (lambda_function_name : option string)
  : list stage_call :=
  (if not_skipped 1 skip_steps then [Convert bucket_name file_key] else [])
  ++ (if not_skipped 2 skip_steps
      then [Generate bucket_name (input_json_key_of file_key) max_workers
              lambda_function_name]
      else [])
  ++ (if not_skipped 3 skip_steps
      then [Evaluate bucket_name (input_json_key_of file_key)]
      else []).

End Workflow.

(* ===================================================================== *)
(** * data/excel_processor.py: cleaning a cell *)
(* ===================================================================== *)

Module ExcelProcessor.
Import PyStr.

(** The value of a spreadsheet cell in the data frame. *)
Inductive cell : Type :=
| Missing                 (* None, NaN, NaT: [pd.isna] holds *)
| Number (v : Py.value)   (* an int, a bool or a float        *)
| Text (s : string)
| Other (v : Py.value).   (* anything else, e.g. a timestamp  *)

Definition CR : ascii := ascii_of_nat 13.
Definition CRLF : string := String CR (String Evaluator.LF EmptyString).
Definition NL : string := String Evaluator.LF EmptyString.

Definition clean_value (val : cell) : cell :=
  match val with
  | Missing => Missing
  | Number v => Number v
  | Text s => Text (replace CRLF NL (strip s))
  | Other v => Other v
  end.

End ExcelProcessor.


(* ===================================================================== *)
(** * Properties of the string primitives *)
(* ===================================================================== *)

Module PyStrFacts.
Import PyStr.

Example strip_both_ends : strip "  a b
 " = "a b".
Proof. reflexivity. Qed.

Example split_colons : split ":" "a:b:c" = ["a"; "b"; "c"].
Proof. reflexivity. Qed.

Example split_empty : split ":" "" = [""].
Proof. reflexivity. Qed.

Example replace_twice : replace "ab" "" "xabyababz" = "xyz".
Proof. reflexivity. Qed.

Example replace_no_overlap : replace "aba" "" "ababa" = "ba".
Proof. reflexivity. Qed.

Example int_sign_underscore : int " +1_0 " = Ok 10.
Proof. reflexivity. Qed.

Example int_double_underscore : int "1__0" = Raise ValueError.
Proof. reflexivity. Qed.

Example int_trailing_text : int "7/10" = Raise ValueError.
Proof. reflexivity. Qed.

(** ** Whitespace *)




Lemma all_chars_impl (p q : ascii -> bool) s :
  (forall c, p c = true -> q c = true) ->
  all_chars p s = true -> all_chars q s = true.
Proof.
  intros Hpq. induction s as [|c s IH]; simpl; [reflexivity|].
  intros [Hc Hs]%andb_prop. now rewrite (Hpq c Hc), IH.
Qed.

(** ** Decimal numerals *)












(** ** Splitting *)



(** ** Prefixes and replacement *)

Lemma prefix_app_self p r : String.prefix p (p +:+ r) = true.
Proof.
  induction p as [|a p IH]; simpl; [now destruct r|].
  now destruct (ascii_dec a a).
Qed.

Lemma prefix_app_inv p s :
  String.prefix p s = true -> exists r, s = p +:+ r.
Proof.
  revert s. induction p as [|a p IH]; intros s H; [now exists s|].
  destruct s as [|c s]; simpl in H; [discriminate|].
  destruct (ascii_dec a c) as [->|]; [|discriminate].
  destruct (IH s H) as [r ->]. now exists r.
Qed.

Lemma append_cons x a b : String x a +:+ b = String x (a +:+ b).
Proof. reflexivity. Qed.

Lemma append_assoc a b c : (a +:+ b) +:+ c = a +:+ (b +:+ c).
Proof.
  induction a as [|x a IH]; [reflexivity|].
  now rewrite !append_cons, IH.
Qed.

Lemma prefix_app_mono p s x :
  String.prefix p s = true -> String.prefix p (s +:+ x) = true.
Proof.
  intros [r ->]%prefix_app_inv.
  rewrite append_assoc. apply prefix_app_self.
Qed.

Lemma replace_from_cons old new c s :
  replace_from old new 0 (String c s)
  = if String.prefix old (String c s)
    then new +:+ replace_from old new (String.length old - 1) s
    else String c (replace_from old new 0 s).
Proof. reflexivity. Qed.

Lemma contains_cons needle c s :
  contains needle (String c s)
  = String.prefix needle (String c s) || contains needle s.
Proof. reflexivity. Qed.

Lemma replace_from_skip old new x r :
  replace_from old new (String.length x) (x +:+ r) = replace_from old new 0 r.
Proof.
  induction x as [|c x IH]; simpl; [|exact IH].
  destruct r; reflexivity.
Qed.

(** A needle whose first character [j] occurs nowhere else in it cannot
    overlap a copy of itself. *)
Section FreshHead.

Variable j : ascii.
Variable rest : string.
Hypothesis j_fresh : all_chars (fun c => negb (Ascii.eqb c j)) rest = true.

Let needle : string := String j rest.

Lemma prefix_stops_at_fresh p s r :
  all_chars (fun c => negb (Ascii.eqb c j)) p = true ->
  String.prefix p (s +:+ String j r) = true -> String.prefix p s = true.
Proof.
  revert p. induction s as [|c s IH]; intros p Hp H.
  - destruct p as [|a p]; [reflexivity|]. simpl in Hp, H.
    apply andb_prop in Hp as [Ha _]. apply negb_true_iff in Ha.
    destruct (ascii_dec a j) as [->|]; [|discriminate].
    now rewrite Ascii.eqb_refl in Ha.
  - destruct p as [|a p]; [reflexivity|]. simpl in Hp, H |- *.
    apply andb_prop in Hp as [_ Hp].
    destruct (ascii_dec a c); [now apply IH|discriminate].
Qed.

Lemma no_occurrence_across c s r :
  contains needle (String c s) = false ->
  String.prefix needle (String c s +:+ needle +:+ r) = false.
Proof.
  rewrite contains_cons. intros [Hp _]%orb_false_elim.
  destruct (String.prefix needle (String c s +:+ needle +:+ r)) eqn:E;
    [|reflexivity].
  unfold needle in E, Hp. simpl in E, Hp.
  destruct (ascii_dec j c); [|discriminate].
  apply prefix_stops_at_fresh in E; [congruence|exact j_fresh].
Qed.

Lemma replace_free new s :
  contains needle s = false -> replace needle new s = s.
Proof.
  unfold replace. induction s as [|c s IH]; [reflexivity|].
  rewrite contains_cons, replace_from_cons.
  intros [-> Hs]%orb_false_elim. now rewrite (IH Hs).
Qed.

Lemma replace_app_needle s r :
  contains needle s = false ->
  replace needle "" (s +:+ needle +:+ r) = s +:+ replace needle "" r.
Proof.
  unfold replace. induction s as [|c s IH]; intros Hs.
  - change ("" +:+ needle +:+ r) with (String j (rest +:+ r)).
    rewrite replace_from_cons.
    change (String j (rest +:+ r)) with (needle +:+ r).
    rewrite prefix_app_self. unfold needle.
    replace (String.length (String j rest) - 1)%nat with (String.length rest)
      by (simpl; lia).
    apply replace_from_skip.
  - pose proof (no_occurrence_across c s r Hs) as Hno.
    rewrite contains_cons in Hs. apply orb_false_elim in Hs as [_ Hs].
    change (String c s +:+ needle +:+ r)
      with (String c (s +:+ needle +:+ r)) in Hno |- *.
    rewrite replace_from_cons, Hno. now rewrite (IH Hs).
Qed.

(** Removing the needle from pieces glued with it gives the pieces glued
    with nothing. *)
Lemma replace_join segs :
  Forall (fun s => contains needle s = false) segs ->
  replace needle "" (join needle segs) = join "" segs.
Proof.
  induction segs as [|s segs IH]; intros H; [reflexivity|].
  apply Forall_cons in H as [Hs Hsegs].
  destruct segs as [|t segs]; [now apply replace_free|].
  change (join needle (s :: t :: segs))
    with (s +:+ needle +:+ join needle (t :: segs)).
  change (join "" (s :: t :: segs)) with (s +:+ "" +:+ join "" (t :: segs)).
  rewrite (replace_app_needle _ _ Hs), (IH Hsegs). reflexivity.
Qed.

(** The text before the first occurrence. *)
Lemma first_occurrence s :
  contains needle s = true ->
  exists a r, s = a +:+ needle +:+ r /\ contains needle a = false.
Proof.
  induction s as [|c s IH]; [discriminate|].
  rewrite contains_cons. destruct (String.prefix needle (String c s)) eqn:E.
  - intros _. apply prefix_app_inv in E as [r ->]. now exists "", r.
  - simpl orb. intros (a & r & -> & Ha)%IH. exists (String c a), r.
    split; [reflexivity|]. rewrite contains_cons, Ha, orb_false_r.
    destruct (String.prefix needle (String c a)) eqn:E'; [|reflexivity].
    apply (prefix_app_mono _ _ (needle +:+ r)) in E'.
    simpl in E, E'. congruence.
Qed.

Lemma length_app a b :
  String.length (a +:+ b) = (String.length a + String.length b)%nat.
Proof. induction a; simpl; auto. Qed.

(** Every text is pieces free of the needle, glued with the needle. *)
Lemma segments_exist s :
  exists segs,
    Forall (fun x => contains needle x = false) segs /\ s = join needle segs.
Proof.
  remember (String.length s) as n eqn:Hn.
  revert s Hn. induction n as [n IH] using lt_wf_ind. intros s ->.
  destruct (contains needle s) eqn:E.
  - destruct (first_occurrence s E) as (a & r & -> & Ha).
    destruct (IH (String.length r)) with (s := r) as (segs & Hsegs & ->);
      [|reflexivity|].
    { rewrite !length_app. unfold needle. simpl. lia. }
    destruct segs as [|t segs].
    + exists [a; ""]. split; [|reflexivity].
      constructor; [exact Ha|]. constructor; [reflexivity|constructor].
    + exists (a :: t :: segs). split; [now constructor|reflexivity].
  - exists [s]. split; [|reflexivity]. constructor; [exact E|constructor].
Qed.

End FreshHead.

End PyStrFacts.

(* ===================================================================== *)
(** * The scoring parser *)
(* ===================================================================== *)

Module ParserFacts.
Import PyStr PyStrFacts Evaluator.

Lemma index_raises {A} (l : list A) i e : index l i = Raise e -> e = IndexError.
Proof. unfold index. destruct (l !! i); congruence. Qed.

Lemma int_raises s e : int s = Raise e -> e = ValueError.
Proof.
  unfold int. destruct (strip s) as [|c t]; [congruence|].
  destruct (Ascii.eqb c "-"); [|destruct (Ascii.eqb c "+")];
    match goal with |- context [parse_digits ?a ?b ?x] =>
      destruct (parse_digits a b x) end; congruence.
Qed.

(** The conversion of a score line raises nothing but what line 120
    catches. *)
Lemma score_of_line_raises line e :
  score_of_line line = Raise e -> e = IndexError \/ e = ValueError.
Proof.
  unfold score_of_line, bind.
  destruct (index (split ":" line) 1) as [field|e'] eqn:E.
  - intros H%int_raises. now right.
  - intros [= <-]. left. eapply index_raises, E.
Qed.

Lemma extract_score_cases lines prefix :
  extract_score lines prefix
  = Ok match first_match lines prefix with
       | None | Some EmptyString => 0
       | Some line =>
           match score_of_line line with Ok n => n | Raise _ => 0 end
       end.
Proof.
  unfold extract_score, first_line.
  destruct (first_match lines prefix) as [[|c line]|]; simpl; try reflexivity.
  destruct (score_of_line (String c line)) as [n|e] eqn:E; [reflexivity|].
  now destruct (score_of_line_raises _ _ E) as [-> | ->].
Qed.

Lemma parse_evaluation_total text :
  exists a c r,
    parse_evaluation text
    = Ok (Evaluation a c r (justification_of (lines_of text)) None)
    /\ extract_score (lines_of text) "Accuracy score" = Ok a
    /\ extract_score (lines_of text) "Completeness score" = Ok c
    /\ extract_score (lines_of text) "Relevance score" = Ok r.
Proof.
  unfold parse_evaluation. rewrite !extract_score_cases. simpl bind.
  eauto 10.
Qed.



Lemma justification_fresh :
  all_chars (fun c => negb (Ascii.eqb c "J")) "ustification:" = true.
Proof. reflexivity. Qed.

(** The justification is always the joined justification lines with the
    prefix text replaced and the ends trimmed, also when there is none. *)
Lemma justification_of_eq lines :
  justification_of lines
  = strip (replace "Justification:" "" (join " " (justification_lines lines))).
Proof.
  unfold justification_of.
  now destruct (justification_lines lines).
Qed.

(** Cutting the joined justification lines at the occurrences of the prefix
    text: the justification is the pieces put together, trimmed. *)
Lemma justification_segments lines segs :
  join " " (justification_lines lines) = join "Justification:" segs ->
  Forall (fun s => contains "Justification:" s = false) segs ->
  justification_of lines = strip (join "" segs).
Proof.
  intros Hjoin Hsegs. rewrite justification_of_eq, Hjoin.
  now rewrite (replace_join "J" "ustification:" justification_fresh).
Qed.

(** C6. Score parsing never raises, for any text.  For each of the three
    axes the first line starting with the axis label is located; the axis is
    0 when there is no such line and when the conversion of that line to an
    integer fails, and it is the converted number otherwise. *)
Theorem score_parsing_never_raises (text : string) :
  exists a c r,
    parse_evaluation text
    = Ok (Evaluation a c r (justification_of (lines_of text)) None)
    /\ forall label n,
         In (label, n) [("Accuracy score", a); ("Completeness score", c);
                        ("Relevance score", r)] ->
         extract_score (lines_of text) label = Ok n
         /\ (first_match (lines_of text) label = None -> n = 0)
         /\ (forall line e,
               first_match (lines_of text) label = Some line ->
               score_of_line line = Raise e -> n = 0)
         /\ (forall line m,
               first_match (lines_of text) label = Some line ->
               score_of_line line = Ok m -> n = m).
Proof.
  destruct (parse_evaluation_total text) as (a & c & r & Hp & Ha & Hc & Hr).
  exists a, c, r. split; [exact Hp|].
  assert (G : forall label n,
             extract_score (lines_of text) label = Ok n ->
             (first_match (lines_of text) label = None -> n = 0)
             /\ (forall line e,
                   first_match (lines_of text) label = Some line ->
                   score_of_line line = Raise e -> n = 0)
             /\ (forall line m,
                   first_match (lines_of text) label = Some line ->
                   score_of_line line = Ok m -> n = m)).
  { intros label n. rewrite extract_score_cases. intros [= <-].
    repeat split.
    - now intros ->.
    - intros line e -> He. destruct line; [reflexivity|now rewrite He].
    - intros line m -> Hm. destruct line; [discriminate|now rewrite Hm]. }
  intros label n [[= <- <-]|[[= <- <-]|[[= <- <-]|[]]]];
    (split; [assumption|now apply G]).
Qed.

Lemma score_parsing_never_raises_witness :
  exists a c r,
    parse_evaluation "Accuracy score: high
Relevance score: 4"
    = Ok (Evaluation a c r "" None)
    /\ a = 0 /\ c = 0 /\ r = 4.
Proof.
  destruct (score_parsing_never_raises "Accuracy score: high
Relevance score: 4") as (a & c & r & Hp & H).
  exists a, c, r. split; [exact Hp|].
  destruct (H "Accuracy score" a) as (_ & _ & Ha & _); [now left|].
  destruct (H "Completeness score" c) as (_ & Hc & _); [now right; left|].
  destruct (H "Relevance score" r) as (_ & _ & _ & Hr);
    [now right; right; left|].
  repeat split.
  - now apply (Ha "Accuracy score: high" ValueError).
  - now apply Hc.
  - now apply (Hr "Relevance score: 4" 4).
Defined.




(** C10. The justification is obtained from the joined justification lines
    by deleting every occurrence of "Justification:", wherever it stands:
    cut the joined lines at the occurrences, and the justification is the
    remaining pieces put together (then trimmed). *)
Theorem justification_every_occurrence_removed (text : string) :
  exists a c r,
    (exists segs,
       join " " (justification_lines (lines_of text))
       = join "Justification:" segs
       /\ Forall (fun s => contains "Justification:" s = false) segs)
    /\ forall segs,
         join " " (justification_lines (lines_of text))
         = join "Justification:" segs ->
         Forall (fun s => contains "Justification:" s = false) segs ->
         parse_evaluation text
         = Ok (Evaluation a c r (strip (join "" segs)) None).
Proof.
  destruct (parse_evaluation_total text) as (a & c & r & Hp & _).
  exists a, c, r. split.
  - destruct (segments_exist "J" "ustification:"
                (join " " (justification_lines (lines_of text))))
      as (segs & Hfree & Hjoin).
    now exists segs.
  - intros segs Hjoin Hfree.
    now rewrite Hp, (justification_segments _ segs Hjoin Hfree).
Qed.

Lemma justification_every_occurrence_removed_witness :
  exists a c r,
    parse_evaluation "Relevance score: 3
Justification: see Justification: above"
    = Ok (Evaluation a c r "see  above" None).
Proof.
  destruct (justification_every_occurrence_removed "Relevance score: 3
Justification: see Justification: above") as (a & c & r & _ & H).
  exists a, c, r.
  apply (H [""; " see "; " above"]).
  - reflexivity.
  - repeat constructor.
Defined.

End ParserFacts.

(* ===================================================================== *)
(** * The judge invoker *)
(* ===================================================================== *)

Module InvokerFacts.
Import PyStr PyStrFacts Evaluator ParserFacts.

Lemma sequential_app (a b : trace) :
  sequential a = true -> sequential b = true ->
  sequential (a ++ b)%list = true.
Proof.
  intros Ha Hb. remember (length a) as k eqn:Hk.
  assert (Hle : (length a <= k)%nat) by lia. clear Hk.
  revert a Ha Hle. induction k as [|k IH]; intros a Ha Hle.
  - destruct a; [exact Hb|simpl in Hle; lia].
  - destruct a as [|[m p|o|n] a]; try discriminate; [exact Hb| |].
    + destruct a as [|[m' p'|o|n] a]; try discriminate.
      simpl in Ha, Hle |- *. apply IH; [exact Ha|lia].
    + simpl in Ha, Hle |- *. apply IH; [exact Ha|lia].
Qed.

Lemma sequential_peak_from (n : Z) (tr : trace) :
  sequential tr = true ->
  peak_from n tr <= n + 1 /\ n <= peak_from n tr /\ in_flight_from n tr = n.
Proof.
  remember (length tr) as k eqn:Hk.
  assert (Hle : (length tr <= k)%nat) by lia. clear Hk.
  revert tr Hle. induction k as [|k IH]; intros tr Hle Hseq.
  - destruct tr; [simpl; lia|simpl in Hle; lia].
  - destruct tr as [|[m p|o|x] tr]; try discriminate; [simpl; lia| |].
    + destruct tr as [|[m' p'|o|x] tr]; try discriminate.
      simpl in Hseq, Hle. destruct (IH tr) as (H1 & H2 & H3); [lia|exact Hseq|].
      cbn [peak_from in_flight_from].
      replace (n + 1 - 1) with n by lia. rewrite H3. lia.
    + simpl in Hseq, Hle. destruct (IH tr) as (H1 & H2 & H3); [lia|exact Hseq|].
      cbn [peak_from in_flight_from]. rewrite H3. lia.
Qed.

(** In a sequential trace at most one call is ever in flight, and none is
    at its end. *)
Lemma sequential_peak (tr : trace) :
  sequential tr = true -> peak_in_flight tr <= 1 /\ in_flight tr = 0.
Proof.
  intros H. destruct (sequential_peak_from 0 tr H) as (H1 & _ & H3).
  unfold peak_in_flight, in_flight. lia.
Qed.

Section InvokerProofs.

Variable bedrock : trace -> string -> string -> outcome.
Variable exn_str : exn -> string.

(** The loop is over before its fuel is: each iteration that does not leave
    the loop adds one to [retries]. *)
Lemma retry_loop_enough_fuel fuel max_retries retries model_id prompt tr :
  (Z.to_nat (max_retries - retries) < fuel)%nat ->
  snd (retry_loop bedrock fuel max_retries retries model_id prompt tr)
  <> OutOfFuel.
Proof.
  revert retries model_id tr.
  induction fuel as [|fuel IH]; intros retries model_id tr Hfuel; [lia|].
  simpl. destruct (retries <? max_retries) eqn:Hlt; [|simpl; congruence].
  apply Z.ltb_lt in Hlt.
  destruct (bedrock tr model_id prompt) as [text|msg]; [simpl; congruence|].
  destruct (is_inference_profile_error msg); [apply IH; lia|].
  destruct (retries + 1 <? max_retries); [apply IH; lia|simpl; congruence].
Qed.

(** The fuel that [call_bedrock_model] gives the loop is enough. *)
Lemma call_bedrock_model_fuel max_retries prompt tr :
  snd (retry_loop bedrock (S (Z.to_nat max_retries)) max_retries 0
         BEDROCK_DEFAULT_MODEL prompt tr)
  <> OutOfFuel.
Proof. apply retry_loop_enough_fuel. lia. Qed.

(** The loop only appends finished calls and sleeps to the trace. *)
Lemma retry_loop_sequential fuel max_retries retries model_id prompt tr :
  exists ext,
    fst (retry_loop bedrock fuel max_retries retries model_id prompt tr)
    = (tr ++ ext)%list
    /\ sequential ext = true.
Proof.
  revert retries model_id tr.
  induction fuel as [|fuel IH]; intros retries model_id tr; simpl.
  { exists []. now rewrite app_nil_r. }
  destruct (retries <? max_retries); [|exists []; now rewrite app_nil_r].
  destruct (bedrock tr model_id prompt) as [text|msg] eqn:E.
  { now exists [Invoke model_id prompt; Done (Returned text)]. }
  destruct (is_inference_profile_error msg).
  - edestruct IH as (ext & -> & Hext).
    exists ([Invoke model_id prompt; Done (Failed msg)] ++ ext)%list.
    now rewrite <- app_assoc.
  - destruct (retries + 1 <? max_retries).
    + edestruct IH as (ext & -> & Hext).
      exists ([Invoke model_id prompt; Done (Failed msg); Sleep 2] ++ ext)%list.
      now rewrite <- !app_assoc.
    + now exists [Invoke model_id prompt; Done (Failed msg)].
Qed.

Lemma call_bedrock_model_sequential prompt_inputs max_retries tr :
  exists ext,
    fst (call_bedrock_model bedrock exn_str prompt_inputs max_retries tr)
    = (tr ++ ext)%list
    /\ sequential ext = true.
Proof.
  unfold call_bedrock_model.
  destruct (retry_loop_sequential (S (Z.to_nat max_retries)) max_retries 0
              BEDROCK_DEFAULT_MODEL (prompt_of prompt_inputs) tr)
    as (ext & Hext & Hseq).
  exists ext. split; [|exact Hseq].
  destruct (retry_loop _ _ _ _ _ _ _) as [tr' exit]. simpl in Hext. subst tr'.
  destruct exit as [[|c result]| | |]; try reflexivity.
  now destruct (parse_evaluation (String c result)).
Qed.

(** C4. An attempt that fails with the inference-profile error counts as
    a retry, switches [model_id] to the fallback model and leads straight to
    the next iteration, with no sleep.  In particular, with at least two
    retries allowed, when attempt 1 fails that way and attempt 2 returns a
    text, exactly two invocations are made, the second with the fallback
    model, and the parsed score of that text is returned; with a single
    retry allowed the failed attempt is the last one. *)
Theorem judge_fallback_on_inference_profile
    (prompt_inputs : gmap string string) (max_retries : Z) (tr : trace)
    (error_message : string) :
  let prompt := prompt_of prompt_inputs in
  let failed :=
    [Invoke BEDROCK_DEFAULT_MODEL prompt; Done (Failed error_message)] in
  is_inference_profile_error error_message = true ->
  bedrock tr BEDROCK_DEFAULT_MODEL prompt = Failed error_message ->
  (forall fuel retries model_id h,
     retries < max_retries ->
     bedrock h model_id prompt = Failed error_message ->
     retry_loop bedrock (S fuel) max_retries retries model_id prompt h
     = retry_loop bedrock fuel max_retries (retries + 1)
         BEDROCK_FALLBACK_MODEL prompt
         (h ++ [Invoke model_id prompt; Done (Failed error_message)])%list)
  /\ (forall text,
        2 <= max_retries ->
        text <> "" ->
        bedrock (tr ++ failed)%list BEDROCK_FALLBACK_MODEL prompt
        = Returned text ->
        exists ev,
          parse_evaluation text = Ok ev
          /\ call_bedrock_model bedrock exn_str prompt_inputs max_retries tr
             = ((tr ++ failed
                  ++ [Invoke BEDROCK_FALLBACK_MODEL prompt;
                      Done (Returned text)])%list, ev)
          /\ length (invocations
                       (failed ++ [Invoke BEDROCK_FALLBACK_MODEL prompt;
                                   Done (Returned text)])%list) = 2%nat
          /\ List.existsb is_sleep
               (failed ++ [Invoke BEDROCK_FALLBACK_MODEL prompt;
                           Done (Returned text)])%list = false)
  /\ (max_retries = 1 ->
      call_bedrock_model bedrock exn_str prompt_inputs max_retries tr
      = ((tr ++ failed)%list,
         zero_score "Failed to get response from model" None)).
Proof.
  intros prompt failed Hprofile Hfirst.
  assert (Hstep : forall fuel retries model_id h,
            retries < max_retries ->
            bedrock h model_id prompt = Failed error_message ->
            retry_loop bedrock (S fuel) max_retries retries model_id prompt h
            = retry_loop bedrock fuel max_retries (retries + 1)
                BEDROCK_FALLBACK_MODEL prompt
                (h ++ [Invoke model_id prompt; Done (Failed error_message)])%list).
  { intros fuel retries model_id h Hlt Hfail.
    apply Z.ltb_lt in Hlt. cbn [retry_loop].
    now rewrite Hlt, Hfail, Hprofile. }
  split; [exact Hstep|]. split.
  - intros text Hmax Htext Hsecond.
    destruct (parse_evaluation_total text) as (a & c & r & Hparse & _).
    eexists. split; [exact Hparse|]. split; [|split; reflexivity].
    unfold call_bedrock_model. fold prompt.
    rewrite (Hstep _ 0 _ tr) by (lia || exact Hfirst).
    destruct (Z.to_nat max_retries) as [|fuel] eqn:Hfuel; [lia|].
    cbn [retry_loop]. fold failed. rewrite Hsecond.
    replace (0 + 1 <? max_retries) with true by (symmetry; apply Z.ltb_lt; lia).
    rewrite <- app_assoc. destruct text as [|ch text]; [congruence|].
    now rewrite Hparse.
  - intros ->. unfold call_bedrock_model. fold prompt.
    rewrite (Hstep _ 0 _ tr) by (lia || exact Hfirst).
    reflexivity.
Qed.

End InvokerProofs.

(** A run of the scenario: the primary model is refused, the fallback
    answers. *)
Lemma judge_fallback_on_inference_profile_witness :
  let bedrock (h : trace) (model_id prompt : string) :=
    if String.eqb model_id BEDROCK_DEFAULT_MODEL
    then Failed "ValidationException: this model needs an inference profile"
    else Returned "Accuracy score: 9
Completeness score: 8
Relevance score: 10
Justification: close match" in
  let prompt :=
    prompt_of (build_judging_prompt "Q1" "Paris is the capital of France"
                 "Paris is the capital") in
  call_bedrock_model bedrock (fun _ => "")
    (build_judging_prompt "Q1" "Paris is the capital of France"
       "Paris is the capital") 3 []
  = ([Invoke BEDROCK_DEFAULT_MODEL prompt;
      Done (Failed
              "ValidationException: this model needs an inference profile");
      Invoke BEDROCK_FALLBACK_MODEL prompt;
      Done (Returned "Accuracy score: 9
Completeness score: 8
Relevance score: 10
Justification: close match")],
     Evaluation 9 8 10 "close match" None).
Proof.
  intros bedrock prompt.
  destruct (judge_fallback_on_inference_profile bedrock (fun _ => "")
              (build_judging_prompt "Q1" "Paris is the capital of France"
                 "Paris is the capital") 3 []
              "ValidationException: this model needs an inference profile")
    as (_ & H & _); [vm_compute; reflexivity | vm_compute; reflexivity |].
  destruct (H "Accuracy score: 9
Completeness score: 8
Relevance score: 10
Justification: close match") as (ev & Hparse & Hcall & _ & _);
    [lia | discriminate | vm_compute; reflexivity |].
  rewrite Hcall. vm_compute in Hparse. injection Hparse as <-.
  vm_compute. reflexivity.
Defined.

End InvokerFacts.

(* ===================================================================== *)
(** * The judging stage *)
(* ===================================================================== *)

Module JudgingFacts.
Import PyStr PyStrFacts InvokerFacts JsonValidator Samples.

Section JudgingProofs.

Variable bedrock : trace -> string -> string -> outcome.
Variable exn_str : exn -> string.
Variable repr : Py.value -> string.
Variable write_json_to_s3 : list result_entry -> bool.

Lemma judge_sequential question expected_answer text_response tr :
  exists ext,
    fst (judge bedrock exn_str question expected_answer text_response tr)
    = (tr ++ ext)%list
    /\ sequential ext = true.
Proof.
  unfold judge. destruct (contains TIMEOUT_MARKER text_response).
  { exists []. now rewrite app_nil_r. }
  destruct (call_bedrock_model_sequential bedrock exn_str
              (Evaluator.build_judging_prompt question text_response
                 expected_answer) 3 tr) as (ext & Hext & Hseq).
  exists ext. split; [|exact Hseq].
  now destruct (Evaluator.call_bedrock_model _ _ _ _ _).
Qed.

Lemma process_entry_dropped entry tr :
  judged repr entry = false ->
  process_entry bedrock exn_str repr entry tr = (tr, None).
Proof. intros H. unfold process_entry. now rewrite H. Qed.

Lemma process_entry_judged entry tr :
  judged repr entry = true ->
  exists ext r,
    process_entry bedrock exn_str repr entry tr = ((tr ++ ext)%list, Some r)
    /\ sequential ext = true
    /\ record_of repr entry r.
Proof.
  intros H. unfold process_entry. rewrite H. simpl negb. cbv iota.
  destruct (judge_sequential (question_of repr entry)
              (expected_answer_of repr entry) (text_response_of repr entry) tr)
    as (ext & Hext & Hseq).
  destruct (judge _ _ _ _ _ _) as [tr' sc]. simpl in Hext. subst tr'.
  exists ext. eexists. split; [reflexivity|]. split; [exact Hseq|].
  now repeat split.
Qed.

(** The loop appends, in input order, one record per entry that passes the
    guard, and only finished calls to the trace. *)
Lemma judge_entries_spec data tr results :
  exists ext new,
    judge_entries bedrock exn_str repr data tr results
    = ((tr ++ ext)%list, (results ++ new)%list)
    /\ sequential ext = true
    /\ Forall2 (record_of repr) (List.filter (judged repr) data) new.
Proof.
  revert tr results. induction data as [|entry data IH]; intros tr results.
  { exists [], []. simpl. rewrite !app_nil_r. repeat split. constructor. }
  simpl. destruct (judged repr entry) eqn:Hj.
  - destruct (process_entry_judged entry tr Hj) as (ext & r & -> & Hseq & Hr).
    destruct (IH (tr ++ ext)%list (results ++ [r])%list)
      as (ext' & new & -> & Hseq' & Hnew).
    exists (ext ++ ext')%list, (r :: new). rewrite <- !app_assoc. simpl.
    repeat split; [now apply sequential_app|now constructor].
  - rewrite (process_entry_dropped entry tr Hj).
    destruct (IH tr results) as (ext' & new & -> & Hseq' & Hnew).
    now exists ext', new.
Qed.

(** C1, as the code has it.  Every entry of a non-empty input whose
    question and expected answer are both non-empty (after trimming) yields
    exactly one record of the output, the records come in the order of their
    entries, and the entries missing either field yield none. *)
Theorem one_record_per_judged_entry (data : list (gmap string Py.value)) :
  data <> [] ->
  exists results,
    written (process_json_data bedrock exn_str repr write_json_to_s3
               (Some data)) = Some results
    /\ Forall2 (record_of repr) (List.filter (judged repr) data) results
    /\ length results = length (List.filter (judged repr) data).
Proof.
  intros Hdata. destruct data as [|entry data]; [congruence|].
  unfold process_json_data.
  destruct (judge_entries_spec (entry :: data) [] [])
    as (ext & new & -> & _ & Hnew).
  exists new. simpl app.
  destruct (write_json_to_s3 new);
    (split; [reflexivity|]; split; [exact Hnew|]);
    symmetry; apply (Forall2_length _ _ _ Hnew).
Qed.


(** C9, as the code has it.  The judging stage takes no worker count and
    makes its calls one after the other: every call is finished before the
    next event, so at most one judge call is ever in flight. *)
Theorem judging_is_sequential (data : option (list (gmap string Py.value))) :
  let tr := events (process_json_data bedrock exn_str repr write_json_to_s3
                      data) in
  sequential tr = true /\ peak_in_flight tr <= 1 /\ in_flight tr = 0.
Proof.
  assert (Hseq : sequential
            (events (process_json_data bedrock exn_str repr write_json_to_s3
                       data)) = true).
  { unfold process_json_data. destruct data as [[|entry data]|];
      try reflexivity.
    destruct (judge_entries_spec (entry :: data) [] [])
      as (ext & new & -> & Hext & _).
    simpl app. now destruct (write_json_to_s3 new). }
  intros tr. split; [exact Hseq|]. now apply sequential_peak.
Qed.

End JudgingProofs.

Lemma one_record_per_judged_entry_witness :
  let data := [sample_entry "Q1" "Paris is the capital"
                 "Paris is the capital of France";
               sample_entry "Q2" "" "Berlin"] in
  exists results,
    written (process_json_data steady_judge (fun _ => "") (fun _ => "")
               (fun _ => true) (Some data)) = Some results
    /\ Forall2 (record_of (fun _ => ""))
         (List.filter (judged (fun _ => "")) data) results
    /\ length results = length (List.filter (judged (fun _ => "")) data).
Proof.
  intros data.
  apply (one_record_per_judged_entry steady_judge (fun _ => "")
           (fun _ => "") (fun _ => true) data).
  discriminate.
Defined.

(** C1 as stated fails: the entry below has a non-empty question, but no
    expected answer, and the output has no record for it. *)
Lemma question_without_expected_answer_dropped :
  let entry := sample_entry "Q2" "" "Berlin" in
  question_of (fun _ => "") entry = "Q2"
  /\ written (process_json_data steady_judge (fun _ => "") (fun _ => "")
                (fun _ => true) (Some [entry])) = Some [].
Proof. vm_compute. split; reflexivity. Qed.


(** C9 as stated fails: with two entries to judge, the second call is only
    made when the first has returned; the two are never in flight
    together, whatever worker count the generation stage was given. *)
Lemma two_entries_judged_one_after_the_other :
  let data := [sample_entry "Q1" "Paris is the capital" "Paris";
               sample_entry "Q2" "Berlin is the capital" "Berlin"] in
  let tr := events (process_json_data steady_judge (fun _ => "")
                      (fun _ => "") (fun _ => true) (Some data)) in
  (exists p1 p2 o,
     tr = [Invoke Evaluator.BEDROCK_DEFAULT_MODEL p1; Done o;
           Invoke Evaluator.BEDROCK_DEFAULT_MODEL p2; Done o])
  /\ length (invocations tr) = 2%nat
  /\ peak_in_flight tr = 1
  /\ peak_in_flight tr <> 2.
Proof.
  vm_compute. split; [|split; [reflexivity|split; [reflexivity|discriminate]]].
  do 3 eexists. reflexivity.
Qed.

End JudgingFacts.

(* ===================================================================== *)
(** * The metrics aggregator *)
(* ===================================================================== *)

Module MetricsFacts.
Import PyStr Metrics.

(** The three score lists are the scores of the evaluated records, in
    order. *)
Lemma collect_evaluated results accs comps rels :
  collect results (accs, comps, rels)
  = ((accs ++ List.map accuracy_of (List.filter evaluated results))%list,
     (comps ++ List.map completeness_of (List.filter evaluated results))%list,
     (rels ++ List.map relevance_of (List.filter evaluated results))%list).
Proof.
  revert accs comps rels.
  induction results as [|r results IH]; intros accs comps rels; simpl.
  { now rewrite !app_nil_r. }
  destruct (evaluated r); [|apply IH].
  rewrite IH. simpl. now rewrite <- !app_assoc.
Qed.

Lemma combined_of_map {A} (f g h : A -> Z) (l : list A) :
  combined_of (List.map f l) (List.map g l) (List.map h l)
  = List.map (fun x => combined_score (f x) (g x) (h x)) l.
Proof.
  unfold combined_of. induction l as [|x l IH]; simpl; [reflexivity|].
  now rewrite IH.
Qed.


(** A combined mean is never halfway between two integers, so its rounding
    does not depend on the rule for ties. *)
Lemma py_round_thirds (a c r : Z) :
  py_round (combined_score a c r) = (2 * (a + c + r) + 3) / 6.
Proof.
  unfold combined_score, py_round. generalize (a + c + r). intros k.
  assert (Hf : Qfloor (inject_Z k / 3) = k / 3).
  { unfold Qfloor, Qdiv, Qmult, Qinv, inject_Z. simpl. now rewrite Z.mul_1_r. }
  rewrite Hf.
  pose proof (Z.div_mod k 3 ltac:(lia)) as Hdm.
  pose proof (Z.mod_pos_bound k 3 ltac:(lia)) as Hb.
  remember (k / 3) as d eqn:Hd. remember (k mod 3) as m eqn:Hmd.
  clear Hd Hmd Hf.
  assert (Hcmp : ((inject_Z k / 3 - inject_Z d)%Q ?= 1 # 2)%Q = (2 * m ?= 3)).
  { unfold Qcompare, Qminus, Qplus, Qopp, Qdiv, Qmult, Qinv, inject_Z. simpl.
    change (Z.pos (1 * 3 * 1)) with 3. change (Z.pos (1 * 3)) with 3.
    rewrite !Z.mul_1_r, Z.mul_1_l.
    replace ((k + - d * 3) * 2) with (2 * m) by lia. reflexivity. }
  rewrite Hcmp.
  assert (Hm : m = 0 \/ m = 1 \/ m = 2) by lia.
  destruct Hm as [Hm|[Hm|Hm]]; rewrite Hm; simpl.
  - apply (Z.div_unique _ _ _ 3); lia.
  - apply (Z.div_unique _ _ _ 5); lia.
  - apply (Z.div_unique _ _ _ 1); lia.
Qed.



Section AggregatorProofs.

Variable float : Type.
Variables np_mean np_median np_min np_max np_std : list Q -> float.

Let calculate_metrics :=
  Metrics.calculate_metrics float np_mean np_median np_min np_max np_std.

(** C8. On the empty list, and on a list whose records all carry the
    timeout-skip marker in their justification, the result has count 0 and
    empty metrics and distribution maps; none of the numpy reductions, in
    which a division could fail, is applied. *)
Theorem no_evaluated_record_gives_empty_summary
    (evaluation_results : list JsonValidator.result_entry) :
  evaluation_results = []
  \/ Forall (fun result =>
               contains SKIP_MARKER
                 (JsonValidator.justification
                    (JsonValidator.text_response_evaluation result)) = true)
       evaluation_results ->
  calculate_metrics evaluation_results = Summary float 0 ∅ ∅.
Proof.
  intros [-> | Hall]; [reflexivity|].
  unfold calculate_metrics, Metrics.calculate_metrics.
  destruct evaluation_results as [|r rest]; [reflexivity|].
  rewrite collect_evaluated.
  assert (Hnone : List.filter evaluated (r :: rest) = []).
  { induction Hall as [|x l Hx _ IH]; [reflexivity|].
    simpl. unfold evaluated at 1. now rewrite Hx. }
  now rewrite Hnone.
Qed.



End AggregatorProofs.

Lemma no_evaluated_record_gives_empty_summary_witness :
  calculate_metrics Q (fun _ => 0%Q) (fun _ => 0%Q) (fun _ => 0%Q)
    (fun _ => 0%Q) (fun _ => 0%Q)
    [JsonValidator.ResultEntry "Q1" "Paris is the capital"
       ResponseGenerator.TIMEOUT_MESSAGE
       (JsonValidator.Scores 0 0 0
          "Skipped due to timeout error in the response")]
  = Summary Q 0 ∅ ∅.
Proof.
  apply no_evaluated_record_gives_empty_summary.
  right. repeat constructor.
Defined.


End MetricsFacts.

(* ===================================================================== *)
(** * The generation stage *)
(* ===================================================================== *)

Module GenerationFacts.
Import PyStr ResponseGenerator Samples.

Section GenerationProofs.

Variable invoke_lambda : nat -> Py.value -> lambda_reply.
Variable json_error : string -> error_lookup.
Variable worker_fault : nat -> option string.
Variable write_json_to_s3 : list (gmap string Py.value) -> bool.

Let answer_for :=
  ResponseGenerator.answer_for invoke_lambda json_error worker_fault.
Let collect := ResponseGenerator.collect invoke_lambda json_error worker_fault.

(** A payload carrying the sandbox-timeout marker gives the timeout message
    as both parts of the answer. *)
Lemma timeout_reply_gives_message i question raw_answer :
  invoke_lambda i question = Payload raw_answer ->
  contains "errorType" raw_answer = true ->
  contains "Sandbox.Timedout" raw_answer = true ->
  invoke_retrieval_lambda invoke_lambda json_error i question
  = (TIMEOUT_MESSAGE, TIMEOUT_MESSAGE).
Proof.
  intros Hreply H1 H2. unfold invoke_retrieval_lambda.
  now rewrite Hreply, H1, H2.
Qed.

(** The indices for which a task is submitted are those of the items that
    have a "Question" key. *)
Lemma submitted_from_spec k (input_data : list (gmap string Py.value)) i :
  i ∈ submitted_from k input_data
  <-> (k <= i)%nat
      /\ exists item, input_data !! (i - k)%nat = Some item
                      /\ is_Some (item !! "Question").
Proof.
  revert k. induction input_data as [|item rest IH]; intros k; simpl.
  { split; [intros H; inversion H|intros (_ & item & H & _); discriminate]. }
  assert (Hrest : i ∈ submitted_from (S k) rest
                  <-> (k < i)%nat
                      /\ exists item', rest !! (i - S k)%nat = Some item'
                                       /\ is_Some (item' !! "Question")).
  { rewrite IH. split; intros [H1 H2]; (split; [lia|exact H2]). }
  assert (Hhere : forall P : Prop, (k < i)%nat /\ P ->
            (rest !! (i - S k)%nat = (item :: rest) !! (i - k)%nat)).
  { intros P [Hlt _]. replace (i - k)%nat with (S (i - S k)) by lia.
    reflexivity. }
  destruct (item !! "Question") as [q|] eqn:Hq.
  - rewrite elem_of_cons, Hrest. split.
    + intros [-> | (Hlt & item' & Hlook & Hsome)].
      * split; [lia|]. exists item. rewrite Nat.sub_diag. simpl.
        split; [reflexivity|]. rewrite Hq. eauto.
      * split; [lia|]. exists item'. split; [|exact Hsome].
        replace (i - k)%nat with (S (i - S k)) by lia. exact Hlook.
    + intros (Hle & item' & Hlook & Hsome).
      destruct (decide (i = k)) as [->|Hne]; [now left|right].
      split; [lia|]. exists item'. split; [|exact Hsome].
      replace (i - k)%nat with (S (i - S k)) in Hlook by lia. exact Hlook.
  - rewrite Hrest. split.
    + intros (Hlt & item' & Hlook & Hsome).
      split; [lia|]. exists item'. split; [|exact Hsome].
      replace (i - k)%nat with (S (i - S k)) by lia. exact Hlook.
    + intros (Hle & item' & Hlook & Hsome).
      destruct (decide (i = k)) as [->|Hne].
      * rewrite Nat.sub_diag in Hlook. simpl in Hlook.
        injection Hlook as <-. rewrite Hq in Hsome. now destruct Hsome.
      * split; [lia|]. exists item'. split; [|exact Hsome].
        replace (i - k)%nat with (S (i - S k)) in Hlook by lia. exact Hlook.
Qed.

(** Whatever the completion order, the slot of each collected index holds
    its item with the answer of its own task; the other slots are left as
    they were. *)
Lemma collect_lookup original order (input_data : list (gmap string Py.value))
    i :
  collect original order input_data !! i
  = if decide (i ∈ order)
    then insert "Generated Answer" (answer_for original i)
           <$> input_data !! i
    else input_data !! i.
Proof.
  revert input_data. induction order as [|j order IH]; intros input_data.
  { destruct (decide (i ∈ [])) as [H|_]; [|reflexivity].
    now apply elem_of_nil in H. }
  unfold collect in *. cbn [ResponseGenerator.collect]. rewrite IH.
  fold answer_for.
  destruct (decide (i = j)) as [->|Hne].
  - rewrite list_lookup_alter_eq.
    destruct (decide (j ∈ j :: order)) as [_|H];
      [|exfalso; apply H, elem_of_cons; now left].
    destruct (decide (j ∈ order)) as [_|_]; [|reflexivity].
    destruct (input_data !! j); simpl; [|reflexivity].
    now rewrite insert_insert_eq.
  - rewrite list_lookup_alter_ne by congruence.
    destruct (decide (i ∈ order)) as [H1|H1];
      destruct (decide (i ∈ j :: order)) as [H2|H2]; try reflexivity.
    + exfalso. apply H2, elem_of_cons. now right.
    + exfalso. apply elem_of_cons in H2 as [?|?]; [congruence|contradiction].
Qed.

Lemma collect_length original order
    (input_data : list (gmap string Py.value)) :
  length (collect original order input_data) = length input_data.
Proof.
  revert input_data. induction order as [|j order IH]; intros input_data;
    [reflexivity|].
  unfold collect in *. cbn [ResponseGenerator.collect].
  now rewrite IH, length_alter.
Qed.

(** C2, as the code has it.  When the task of a dispatched item raises, the
    exception is caught where the results are collected: the item gets a
    generated answer whose raw response is "Error: " followed by the error
    text and whose text response is empty, and the batch goes on, every
    other dispatched item getting the answer of its own task whatever the
    order of completion. *)
Theorem failed_task_recorded_batch_continues
    (input_data : list (gmap string Py.value)) (order : list nat)
    (i : nat) (item : gmap string Py.value) (e : string) :
  order ≡ₚ submitted input_data ->
  input_data !! i = Some item ->
  is_Some (item !! "Question") ->
  worker_fault i = Some e ->
  exists final,
    process_input_json invoke_lambda json_error worker_fault write_json_to_s3
      (Some input_data) order
    = (write_json_to_s3 final, Some final)
    /\ length final = length input_data
    /\ final !! i
       = Some (<["Generated Answer" :=
                   generated_answer ("Error: " +:+ e) ""]> item)
    /\ forall j item_j,
         input_data !! j = Some item_j ->
         final !! j
         = Some (if decide (is_Some (item_j !! "Question"))
                 then <["Generated Answer" := answer_for input_data j]> item_j
                 else item_j).
Proof.
  intros Horder Hi Hq Hfault.
  exists (collect input_data order input_data).
  assert (Hall : forall j item_j,
            input_data !! j = Some item_j ->
            collect input_data order input_data !! j
            = Some (if decide (is_Some (item_j !! "Question"))
                    then <["Generated Answer" := answer_for input_data j]>
                           item_j
                    else item_j)).
  { intros j item_j Hj. rewrite collect_lookup, Hj.
    assert (Hiff : j ∈ order <-> is_Some (item_j !! "Question")).
    { rewrite Horder. unfold submitted. rewrite submitted_from_spec.
      rewrite Nat.sub_0_r. split.
      - intros (_ & item' & Hlook & Hsome). congruence.
      - intros Hsome. split; [lia|]. now exists item_j. }
    destruct (decide (j ∈ order)) as [Hin|Hout];
      destruct (decide (is_Some (item_j !! "Question"))) as [Hs|Hn];
      try reflexivity.
    - exfalso. now apply Hn, Hiff.
    - exfalso. now apply Hout, Hiff. }
  split; [|split; [apply collect_length|split; [|exact Hall]]].
  - unfold process_input_json. destruct input_data; [discriminate|reflexivity].
  - rewrite (Hall i item Hi).
    destruct (decide (is_Some (item !! "Question"))); [|contradiction].
    unfold answer_for, ResponseGenerator.answer_for, result_of.
    now rewrite Hfault.
Qed.

End GenerationProofs.

Lemma failed_task_recorded_batch_continues_witness :
  exists final,
    process_input_json sample_lambda (fun _ => NotJson) sample_fault
      (fun _ => true) (Some sample_items) [2; 0]%nat
    = (true, Some final)
    /\ final !! 0%nat
       = Some (<["Generated Answer" :=
                   generated_answer "Error: worker lost" ""]>
                 (<["Question" := Py.VStr "Q1"]> ∅))
    /\ final !! 2%nat
       = Some (<["Generated Answer" :=
                   generated_answer "Rome<sessionId>42" "Rome"]>
                 (<["Question" := Py.VStr "Q3"]> ∅)).
Proof.
  destruct (failed_task_recorded_batch_continues sample_lambda
              (fun _ => NotJson) sample_fault (fun _ => true) sample_items
              [2; 0]%nat 0%nat (<["Question" := Py.VStr "Q1"]> ∅)
              "worker lost")
    as (final & Hrun & _ & H0 & Hall).
  - vm_compute. apply perm_swap.
  - reflexivity.
  - vm_compute. eauto.
  - reflexivity.
  - exists final. split; [exact Hrun|]. split; [exact H0|].
    rewrite (Hall 2%nat (<["Question" := Py.VStr "Q3"]> ∅) eq_refl).
    vm_compute. reflexivity.
Defined.

(** C2 as stated fails: after the task of the only item raised "worker
    lost", the stored answer has the error text as its raw response only;
    its text response is the empty string. *)
Lemma failed_task_text_response_empty :
  let final :=
    collect sample_lambda (fun _ => NotJson) sample_fault
      [<["Question" := Py.VStr "Q1"]> ∅] [0%nat]
      [<["Question" := Py.VStr "Q1"]> ∅] in
  exists answer,
    final !! 0%nat ≫= (fun item => item !! "Generated Answer")
    = Some (Py.VDict answer)
    /\ answer !! "raw_response" = Some (Py.VStr "Error: worker lost")
    /\ answer !! "text_response" = Some (Py.VStr "")
    /\ answer !! "text_response" <> answer !! "raw_response".
Proof.
  vm_compute. eexists. split; [reflexivity|].
  vm_compute. repeat split; discriminate.
Qed.

End GenerationFacts.

(* ===================================================================== *)
(** * More on the string primitives *)
(* ===================================================================== *)

Module PyMoreFacts.
Import PyStr PyStrFacts PyMore.

(** ** Trimming *)

Lemma lstrip_head s :
  match lstrip s with
  | EmptyString => True
  | String c _ => is_space c = false
  end.
Proof.
  induction s as [|c s IH]; simpl; [exact I|].
  destruct (is_space c) eqn:E; [exact IH|exact E].
Qed.

Lemma rstrip_idempotent s : rstrip (rstrip s) = rstrip s.
Proof.
  induction s as [|c s IH]; [reflexivity|]. simpl.
  destruct (rstrip s) as [|d r] eqn:E.
  - destruct (is_space c) eqn:Ec; [reflexivity|]. simpl. now rewrite Ec.
  - simpl. simpl in IH. now rewrite IH.
Qed.

Lemma rstrip_keeps_head c s :
  is_space c = false -> exists r, rstrip (String c s) = String c r.
Proof.
  intros Hc. simpl. destruct (rstrip s) as [|d r]; [|eauto].
  rewrite Hc. eauto.
Qed.

Lemma strip_head s :
  match strip s with
  | EmptyString => True
  | String c _ => is_space c = false
  end.
Proof.
  unfold strip. pose proof (lstrip_head s) as H.
  destruct (lstrip s) as [|c t]; [exact I|].
  destruct (rstrip_keeps_head c t H) as [r ->]. exact H.
Qed.

(** Trimming twice is trimming once. *)
Lemma strip_idempotent s : strip (strip s) = strip s.
Proof.
  pose proof (strip_head s) as H. unfold strip at 1.
  destruct (strip s) as [|c t] eqn:E; [reflexivity|].
  simpl lstrip. rewrite H. rewrite <- E. unfold strip.
  apply rstrip_idempotent.
Qed.






Lemma append_nil_r s : s +:+ "" = s.
Proof.
  induction s as [|c s IH]; [reflexivity|]. now rewrite append_cons, IH.
Qed.

(** ** Suffixes *)

Lemma endswith_refl s : endswith s s = true.
Proof. destruct s; cbn [endswith]; now rewrite String.eqb_refl. Qed.

Lemma endswith_app s suffix : endswith (s +:+ suffix) suffix = true.
Proof.
  induction s as [|c s IH]; [apply endswith_refl|].
  rewrite append_cons. cbn [endswith]. rewrite IH. apply orb_true_r.
Qed.

Lemma endswith_inv s suffix :
  endswith s suffix = true -> exists a, s = a +:+ suffix.
Proof.
  induction s as [|c s IH]; cbn [endswith].
  - rewrite orb_false_r. intros <-%String.eqb_eq. now exists "".
  - intros [<-%String.eqb_eq | H]%orb_prop; [now exists ""|].
    destruct (IH H) as [a ->]. now exists (String c a).
Qed.

(** ** Replacement by a text *)

Section FreshHead.

Variable j : ascii.
Variable rest : string.
Hypothesis j_fresh : all_chars (fun c => negb (Ascii.eqb c j)) rest = true.

Let needle : string := String j rest.

Lemma replace_app_needle_by new s r :
  contains needle s = false ->
  replace needle new (s +:+ needle +:+ r) = s +:+ new +:+ replace needle new r.
Proof.
  unfold replace. induction s as [|c s IH]; intros Hs.
  - change ("" +:+ needle +:+ r) with (String j (rest +:+ r)).
    rewrite replace_from_cons.
    change (String j (rest +:+ r)) with (needle +:+ r).
    rewrite prefix_app_self. unfold needle.
    replace (String.length (String j rest) - 1)%nat with (String.length rest)
      by (simpl; lia).
    now rewrite replace_from_skip.
  - pose proof (no_occurrence_across j rest j_fresh c s r Hs) as Hno.
    rewrite contains_cons in Hs. apply orb_false_elim in Hs as [_ Hs].
    change (String c s +:+ String j rest +:+ r)
      with (String c (s +:+ needle +:+ r)) in Hno.
    fold needle in Hno.
    rewrite !append_cons, replace_from_cons, Hno. now rewrite (IH Hs).
Qed.

(** An occurrence at the very end is replaced, whatever comes before. *)
Lemma replace_from_app_end new s k :
  (k <= String.length s)%nat ->
  replace_from needle new k (s +:+ needle)
  = replace_from needle new k s +:+ new.
Proof.
  revert k. induction s as [|c s IH]; intros k Hk.
  - simpl in Hk. assert (k = 0%nat) as -> by lia.
    change ("" +:+ needle) with (String j rest).
    rewrite replace_from_cons.
    pose proof (prefix_app_self needle "") as Hp.
    pose proof (replace_from_skip needle new rest "") as Hskip.
    rewrite append_nil_r in Hp, Hskip. fold needle. rewrite Hp.
    replace (String.length needle - 1)%nat with (String.length rest)
      by (unfold needle; simpl; lia).
    rewrite Hskip. simpl. now rewrite append_nil_r.
  - rewrite append_cons. destruct k as [|k].
    + rewrite !replace_from_cons. rewrite <- append_cons.
      destruct (String.prefix needle (String c s)) eqn:E.
      * rewrite (prefix_app_mono _ _ needle E).
        assert (Hlen : (String.length needle - 1 <= String.length s)%nat).
        { apply prefix_app_inv in E as [r E]. apply (f_equal String.length) in E.
          rewrite length_app in E. simpl in E. simpl. lia. }
        rewrite (IH _ Hlen). now rewrite append_assoc.
      * destruct (String.prefix needle (String c s +:+ needle)) eqn:E'.
        { exfalso. unfold needle in E, E'. rewrite append_cons in E'.
          simpl in E, E'. destruct (ascii_dec j c); [|discriminate].
          apply (prefix_stops_at_fresh j rest s rest) in E'; [congruence|].
          exact j_fresh. }
        rewrite append_cons. f_equal. apply IH. lia.
    + simpl. apply IH. simpl in Hk. lia.
Qed.

Lemma replace_app_end new s :
  replace needle new (s +:+ needle) = replace needle new s +:+ new.
Proof. apply replace_from_app_end. lia. Qed.

End FreshHead.

End PyMoreFacts.

(* ===================================================================== *)
(** * The keys of the artifacts *)
(* ===================================================================== *)

Module StorageFacts.
Import PyStr PyStrFacts PyMore PyMoreFacts Storage.

Lemma input_marker_fresh :
  all_chars (fun c => negb (Ascii.eqb c "_")) "input.json" = true.
Proof. reflexivity. Qed.

Lemma output_key_end base :
  get_output_json_path (base +:+ "_input.json")
  = get_output_json_path base +:+ "_output.json".
Proof. apply (replace_app_end "_" "input.json" input_marker_fresh). Qed.

Lemma contains_app_needle needle a r :
  contains needle (a +:+ needle +:+ r) = true.
Proof.
  induction a as [|c a IH].
  - change ("" +:+ needle +:+ r) with (needle +:+ r).
    assert (U : forall s, contains needle s = true
                          \/ String.prefix needle s = false).
    { intros s. destruct (String.prefix needle s) eqn:E; [left|now right].
      destruct s; cbn [contains]; now rewrite E. }
    destruct (U (needle +:+ r)) as [H|H]; [exact H|].
    now rewrite prefix_app_self in H.
  - rewrite append_cons, contains_cons, IH. apply orb_true_r.
Qed.

Lemma output_key_differs key :
  contains "_input.json" key = true -> get_output_json_path key <> key.
Proof.
  intros E Hsame. unfold get_output_json_path in Hsame.
  destruct (first_occurrence "_" "input.json" _ E) as (a & r & -> & Ha).
  rewrite (replace_app_needle_by "_" "input.json" input_marker_fresh) in Hsame
    by exact Ha.
  apply String.app_inj in Hsame. discriminate Hsame.
Qed.

(** X1. The output key is the input key itself exactly when the input key does
    not contain "_input.json": only then would the evaluations be written
    over the record set they were computed from. *)
Theorem output_key_same_iff_no_marker (input_json_key : string) :
  get_output_json_path input_json_key = input_json_key
  <-> contains "_input.json" input_json_key = false.
Proof.
  unfold get_output_json_path. split.
  - intros Hsame. destruct (contains "_input.json" input_json_key) eqn:E;
      [exfalso|reflexivity].
    now apply (output_key_differs _ E).
  - apply (replace_free "_" "input.json").
Qed.

(** X2. A key that ends with "_input.json" is mapped to a key that ends with
    "_output.json"; when nothing else in it reads "_input.json", only that
    ending changes. *)
Theorem output_key_of_input_key (base : string) :
  endswith (get_output_json_path (base +:+ "_input.json")) "_output.json"
  = true
  /\ (contains "_input.json" base = false ->
      get_output_json_path (base +:+ "_input.json")
      = base +:+ "_output.json").
Proof.
  unfold get_output_json_path. split.
  - fold (get_output_json_path (base +:+ "_input.json")).
    rewrite output_key_end. apply endswith_app.
  - intros Hbase.
    pose proof (replace_app_needle_by "_" "input.json" input_marker_fresh
                  "_output.json" base "" Hbase) as H.
    change (replace _ _ "") with "" in H.
    rewrite !append_nil_r in H. exact H.
Qed.

Lemma output_key_of_input_key_witness :
  get_output_json_path "runs/batch1_input.json" = "runs/batch1_output.json".
Proof.
  destruct (output_key_of_input_key "runs/batch1") as [_ H].
  apply H. reflexivity.
Defined.

Section CreateOutputsProofs.

Variable put_object : list string -> string -> bool.




End CreateOutputsProofs.

End StorageFacts.

(* ===================================================================== *)
(** * The workflow *)
(* ===================================================================== *)

Module WorkflowFacts.
Import PyStr PyStrFacts PyMore PyMoreFacts Storage StorageFacts Workflow.

Lemma prefix_dot_false r c s :
  not_dot c = true -> String.prefix (String "." r) (String c s) = false.
Proof.
  unfold not_dot. intros Hc%negb_true_iff. cbn [String.prefix].
  destruct (ascii_dec "." c) as [<-|]; [discriminate|reflexivity].
Qed.

Lemma contains_dot_free_app r base t :
  all_chars not_dot base = true ->
  contains (String "." r) (base +:+ t) = contains (String "." r) t.
Proof.
  induction base as [|c base IH]; [reflexivity|]. simpl all_chars.
  intros [Hc Hbase]%andb_prop.
  now rewrite append_cons, contains_cons, (prefix_dot_false _ _ _ Hc), IH.
Qed.

Lemma xlsx_fresh : all_chars (fun c => negb (Ascii.eqb c ".")) "xlsx" = true.
Proof. reflexivity. Qed.

Lemma xls_fresh : all_chars (fun c => negb (Ascii.eqb c ".")) "xls" = true.
Proof. reflexivity. Qed.

Lemma input_key_of_dot_free base :
  all_chars not_dot base = true ->
  input_json_key_of (base +:+ ".xlsx") = base +:+ "_input.json"
  /\ input_json_key_of (base +:+ ".xls") = base +:+ "_input.json".
Proof.
  intros Hbase.
  assert (Hfree : forall r t, contains (String "." r) t = false ->
                    contains (String "." r) (base +:+ t) = false).
  { intros r t Ht. now rewrite contains_dot_free_app. }
  assert (Hbase_free : forall r, contains (String "." r) base = false).
  { intros r. rewrite <- (append_nil_r base). now apply Hfree. }
  unfold input_json_key_of. split.
  - pose proof (replace_app_needle_by "." "xlsx" xlsx_fresh "_input.json"
                  base "" (Hbase_free _)) as H1.
    change (replace _ _ "") with "" in H1. rewrite !append_nil_r in H1.
    rewrite H1.
    rewrite (replace_free "." "xls") by now apply Hfree.
    now rewrite endswith_app.
  - rewrite (replace_free "." "xlsx") by now apply Hfree.
    pose proof (replace_app_needle_by "." "xls" xls_fresh "_input.json"
                  base "" (Hbase_free _)) as H1.
    change (replace _ _ "") with "" in H1. rewrite !append_nil_r in H1.
    rewrite H1. now rewrite endswith_app.
Qed.

(** X4. Whatever the key of the spreadsheet, the key given to the generation
    and evaluation stages ends with "_input.json"; so the key of the
    evaluations ends with "_output.json" and is another key. *)
Theorem input_key_always_marked (file_key : string) :
  endswith (input_json_key_of file_key) "_input.json" = true
  /\ endswith (get_output_json_path (input_json_key_of file_key))
       "_output.json" = true
  /\ get_output_json_path (input_json_key_of file_key)
     <> input_json_key_of file_key.
Proof.
  assert (H : endswith (input_json_key_of file_key) "_input.json" = true).
  { unfold input_json_key_of.
    destruct (endswith (replace ".xls" "_input.json"
                          (replace ".xlsx" "_input.json" file_key))
                "_input.json") eqn:E; simpl; [exact E|apply endswith_app]. }
  split; [exact H|]. apply endswith_inv in H as [a Ha]. rewrite Ha. split.
  - rewrite output_key_end. apply endswith_app.
  - apply output_key_differs.
    rewrite <- (append_nil_r "_input.json"). apply contains_app_needle.
Qed.

(** ** Splitting off the extension *)

Lemma rfind_from_app c i best a b :
  rfind_from c i best (a +:+ b)
  = rfind_from c (i + Z.of_nat (String.length a)) (rfind_from c i best a) b.
Proof.
  revert i best. induction a as [|x a IH]; intros i best.
  - simpl. now rewrite Z.add_0_r.
  - rewrite append_cons. cbn [rfind_from String.length]. rewrite IH.
    f_equal. lia.
Qed.

Lemma rfind_from_absent c i best s :
  all_chars (fun x => negb (Ascii.eqb x c)) s = true ->
  rfind_from c i best s = best.
Proof.
  revert i. induction s as [|x s IH]; intros i; [reflexivity|].
  simpl. intros [Hx Hs]%andb_prop. apply negb_true_iff in Hx.
  rewrite Hx. now apply IH.
Qed.

(** When the last character is not [c], the last occurrence of [c] lies
    before it. *)
Lemma rfind_from_not_last c i best s :
  s <> "" -> endswith s (String c "") = false ->
  best < i ->
  rfind_from c i best s < i + Z.of_nat (String.length s) - 1
  /\ (-1 <= best -> -1 <= rfind_from c i best s).
Proof.
  intros Hs Hend Hbest. split.
  - revert i best Hs Hend Hbest. induction s as [|x s IH];
      intros i best Hs Hend Hbest; [congruence|].
    cbn [endswith] in Hend. apply orb_false_elim in Hend as [Hx Hend].
    destruct s as [|y s].
    + simpl. destruct (Ascii.eqb x c) eqn:E; [|lia].
      apply Ascii.eqb_eq in E. subst x.
      now rewrite String.eqb_refl in Hx.
    + change (rfind_from c i best (String x (String y s)))
        with (rfind_from c (i + 1) (if Ascii.eqb x c then i else best)
                (String y s)).
      specialize (IH (i + 1) (if Ascii.eqb x c then i else best)).
      assert (H : rfind_from c (i + 1) (if Ascii.eqb x c then i else best)
                    (String y s)
                  < i + 1 + Z.of_nat (String.length (String y s)) - 1).
      { apply IH; [discriminate|exact Hend|destruct (Ascii.eqb x c); lia]. }
      change (String.length (String x (String y s)))
        with (S (String.length (String y s))).
      lia.
  - intros Hb. assert (Hi : -1 <= i - 1) by lia. clear Hs Hend.
    revert i best Hbest Hb Hi. induction s as [|x s IH];
      intros i best Hbest Hb Hi; [exact Hb|].
    cbn [rfind_from]. apply IH; destruct (Ascii.eqb x c); lia.
Qed.

Lemma get_app_l n a b :
  (n < String.length a)%nat -> String.get n (a +:+ b) = String.get n a.
Proof.
  revert n. induction a as [|x a IH]; intros n Hn; [simpl in Hn; lia|].
  rewrite append_cons. destruct n as [|n]; [reflexivity|].
  simpl. apply IH. simpl in Hn. lia.
Qed.

Lemma get_all_chars p n s :
  all_chars p s = true -> (n < String.length s)%nat ->
  exists x, String.get n s = Some x /\ p x = true.
Proof.
  revert n. induction s as [|x s IH]; intros n Hall Hn; [simpl in Hn; lia|].
  simpl in Hall. apply andb_prop in Hall as [Hx Hs].
  destruct n as [|n]; [now exists x|].
  simpl. apply IH; [exact Hs|simpl in Hn; lia].
Qed.

Lemma take_app a b : take (String.length a) (a +:+ b) = a.
Proof.
  induction a as [|x a IH]; [now destruct b|].
  rewrite append_cons. simpl. now rewrite IH.
Qed.

Lemma drop_app a b : drop (String.length a) (a +:+ b) = b.
Proof.
  induction a as [|x a IH]; [now destruct b|].
  rewrite append_cons. simpl. exact IH.
Qed.

(** The extension of a key [base ++ ext], where [ext] is a dot followed by
    characters that are neither dots nor slashes, and the file name in
    [base] is not empty and has no dot. *)
Lemma splitext_dot_free base ext :
  all_chars not_dot base = true ->
  base <> "" -> endswith base "/" = false ->
  all_chars (fun x => negb (Ascii.eqb x ".") && negb (Ascii.eqb x "/")) ext
  = true ->
  splitext (base +:+ String "." ext) = (base, String "." ext).
Proof.
  intros Hdots Hne Hslash Hext.
  assert (Hext_dot : all_chars (fun x => negb (Ascii.eqb x ".")) ext = true).
  { apply (all_chars_impl _ _ _ (fun x H => proj1 (andb_prop _ _ H)) Hext). }
  assert (Hext_sep : all_chars (fun x => negb (Ascii.eqb x "/")) ext = true).
  { apply (all_chars_impl _ _ _ (fun x H => proj2 (andb_prop _ _ H)) Hext). }
  set (n := String.length base).
  assert (Hdot : rfind "." (base +:+ String "." ext) = Z.of_nat n).
  { unfold rfind. rewrite rfind_from_app. cbn [rfind_from].
    rewrite Ascii.eqb_refl. now rewrite (rfind_from_absent _ _ _ _ Hext_dot). }
  assert (Hsep : rfind "/" (base +:+ String "." ext) = rfind "/" base).
  { unfold rfind. rewrite rfind_from_app. cbn [rfind_from].
    change (Ascii.eqb "." "/") with false. cbv iota.
    now rewrite (rfind_from_absent _ _ _ _ Hext_sep). }
  destruct (rfind_from_not_last "/" 0 (-1) base Hne Hslash ltac:(lia))
    as [Hlt Hge].
  fold (rfind "/" base) in Hlt, Hge. fold n in Hlt.
  assert (Hge' : -1 <= rfind "/" base) by (apply Hge; lia).
  unfold splitext. rewrite Hdot, Hsep.
  replace (rfind "/" base <? Z.of_nat n) with true
    by (symmetry; apply Z.ltb_lt; lia).
  assert (Hcount : exists k, Z.to_nat (Z.of_nat n - (rfind "/" base + 1))
                             = S k).
  { exists (Z.to_nat (Z.of_nat n - (rfind "/" base + 1)) - 1)%nat. lia. }
  destruct Hcount as [k ->]. cbn [has_non_dot].
  assert (Hidx : (Z.to_nat (rfind "/" base + 1) < n)%nat) by lia.
  rewrite (get_app_l _ _ _ Hidx).
  destruct (get_all_chars _ _ _ Hdots Hidx) as (x & -> & Hx).
  unfold not_dot in Hx. apply negb_true_iff in Hx. rewrite Hx.
  cbn [andb]. rewrite Nat2Z.id. unfold n.
  now rewrite take_app, drop_app.
Qed.

(** X5. For a spreadsheet key [base.xlsx] or [base.xls] whose base has no dot
    and names a file, the key under which the conversion stage writes the
    record set is the key that the workflow gives to the two later stages:
    [base_input.json]. *)
Theorem converted_key_is_input_key (base : string) :
  all_chars not_dot base = true ->
  base <> "" -> endswith base "/" = false ->
  converted_key (base +:+ ".xlsx") = input_json_key_of (base +:+ ".xlsx")
  /\ converted_key (base +:+ ".xls") = input_json_key_of (base +:+ ".xls")
  /\ input_json_key_of (base +:+ ".xlsx") = base +:+ "_input.json"
  /\ input_json_key_of (base +:+ ".xls") = base +:+ "_input.json".
Proof.
  intros Hdots Hne Hslash.
  destruct (input_key_of_dot_free base Hdots) as [H1 H2].
  unfold converted_key.
  rewrite (splitext_dot_free base "xlsx" Hdots Hne Hslash eq_refl).
  rewrite (splitext_dot_free base "xls" Hdots Hne Hslash eq_refl).
  now rewrite H1, H2.
Qed.

Lemma converted_key_is_input_key_witness :
  converted_key "data/questions.xlsx" = "data/questions_input.json"
  /\ input_json_key_of "data/questions.xlsx" = "data/questions_input.json".
Proof.
  destruct (converted_key_is_input_key "data/questions")
    as (H1 & _ & H3 & _); [reflexivity|discriminate|reflexivity|].
  split; [exact (eq_trans H1 H3)|exact H3].
Defined.

Lemma dot_free_no_marker base :
  all_chars not_dot base = true -> contains "_input.json" base = false.
Proof.
  induction base as [|c base IH]; [reflexivity|]. intros H.
  rewrite contains_cons.
  destruct (String.prefix "_input.json" (String c base)) eqn:E.
  - apply prefix_app_inv in E as [r Hr]. rewrite Hr in H.
    vm_compute in H. discriminate H.
  - apply IH. simpl in H. now apply andb_prop in H as [_ H].
Qed.

(** X6. For a spreadsheet key [base.xlsx] or [base.xls] whose base has no dot,
    the evaluation stage writes its records under [base_output.json]. *)
Theorem evaluation_artifact_key (base : string) :
  all_chars not_dot base = true ->
  get_output_json_path (input_json_key_of (base +:+ ".xlsx"))
  = base +:+ "_output.json"
  /\ get_output_json_path (input_json_key_of (base +:+ ".xls"))
     = base +:+ "_output.json".
Proof.
  intros Hdots. destruct (input_key_of_dot_free base Hdots) as [-> ->].
  pose proof (replace_app_needle_by "_" "input.json" input_marker_fresh
                "_output.json" base "" (dot_free_no_marker base Hdots)) as H.
  change (replace _ _ "") with "" in H. rewrite !append_nil_r in H.
  now split.
Qed.

Lemma evaluation_artifact_key_witness :
  get_output_json_path (input_json_key_of "data/questions.xlsx")
  = "data/questions_output.json".
Proof.
  destruct (evaluation_artifact_key "data/questions") as [H _];
    [reflexivity|exact H].
Defined.

(** ** The three stages *)

Section RunProofs.

Variable stage : list stage_call -> stage_call -> bool.

(** X7. [run_etl_workflow] calls the stages that are not skipped, in order,
    until one of them fails: the calls made are a prefix of the planned
    ones, every call but a failing last one returned True, and the result
    is True exactly when all the planned calls were made and succeeded.
    Generation and evaluation are given the same key. *)
Theorem workflow_runs_planned_stages
    (bucket_name file_key : string) (max_workers : Z)
    (skip_steps : option (list Z)) (lambda_function_name : option string) :
  let plan := planned bucket_name file_key max_workers
                (default [] skip_steps) lambda_function_name in
  let run := run_etl_workflow stage bucket_name file_key max_workers
               skip_steps lambda_function_name in
  (exists rest, plan = (fst run ++ rest)%list
                /\ (snd run = true -> rest = []))
  /\ (snd run = false -> fst run <> [])
  /\ forall i call,
       fst run !! i = Some call ->
       stage (firstn i (fst run)) call
       = negb (negb (snd run) && (S i =? length (fst run))%nat).
Proof.
  intros plan run. subst plan run. unfold planned, run_etl_workflow.
  destruct (not_skipped 1 (default [] skip_steps));
    destruct (not_skipped 2 (default [] skip_steps));
    destruct (not_skipped 3 (default [] skip_steps));
    cbn [fst snd app];
    repeat match goal with
           | |- context [stage ?h ?c] =>
               let E := fresh "E" in destruct (stage h c) eqn:E; cbn [negb fst snd app]
           end;
    (split; [eexists; split; [reflexivity|]; first [reflexivity|discriminate]
            |split; [first [discriminate|intros _; discriminate]|]]);
    intros [|[|[|i]]] call; cbn; intros [= <-]; assumption.
Qed.

End RunProofs.

End WorkflowFacts.

(* ===================================================================== *)
(** * More on the judge invoker *)
(* ===================================================================== *)

Module InvokerMoreFacts.
Import PyStr PyStrFacts Evaluator ParserFacts InvokerFacts.

Lemma invocations_app (a b : trace) :
  invocations (a ++ b)%list = (invocations a ++ invocations b)%list.
Proof. apply List.filter_app. Qed.

Section InvokerMoreProofs.

Variable bedrock : trace -> string -> string -> outcome.
Variable exn_str : exn -> string.




Lemma retry_loop_always_failing fuel max_retries retries model_id prompt tr :
  (forall h m p, exists e, bedrock h m p = Failed e
                           /\ is_inference_profile_error e = false) ->
  retries < max_retries ->
  (Z.to_nat (max_retries - retries) < fuel)%nat ->
  exists ext e,
    retry_loop bedrock fuel max_retries retries model_id prompt tr
    = ((tr ++ ext)%list, Reraised e)
    /\ invocations ext
       = List.map (fun m => Invoke m prompt)
           (replicate (Z.to_nat (max_retries - retries)) model_id)
    /\ List.filter is_sleep ext
       = replicate (Z.to_nat (max_retries - retries) - 1) (Sleep 2)
    /\ last ext = Some (Done (Failed e)).
Proof.
  intros Hfail. revert retries model_id tr.
  induction fuel as [|fuel IH]; intros retries model_id tr Hlt Hfuel; [lia|].
  cbn [retry_loop]. replace (retries <? max_retries) with true
    by (symmetry; now apply Z.ltb_lt).
  destruct (Hfail tr model_id prompt) as (msg & -> & Hp). rewrite Hp.
  destruct (retries + 1 <? max_retries) eqn:Hlt'.
  - apply Z.ltb_lt in Hlt'.
    destruct (IH (retries + 1) model_id
                ((tr ++ [Invoke model_id prompt; Done (Failed msg)])
                   ++ [Sleep 2])%list Hlt')
      as (ext & e & -> & Hinv & Hsl & Hlast); [lia|].
    exists ([Invoke model_id prompt; Done (Failed msg); Sleep 2] ++ ext)%list, e.
    rewrite <- !app_assoc. split; [reflexivity|].
    rewrite invocations_app, List.filter_app, Hinv, Hsl.
    cbn [invocations List.filter is_invoke is_sleep app].
    replace (Z.to_nat (max_retries - retries))
      with (S (Z.to_nat (max_retries - (retries + 1)))) by lia.
    split; [reflexivity|]. split.
    + replace (S (Z.to_nat (max_retries - (retries + 1))) - 1)%nat
        with (S (Z.to_nat (max_retries - (retries + 1)) - 1)) by lia.
      reflexivity.
    + destruct ext; [discriminate Hlast|exact Hlast].
  - apply Z.ltb_ge in Hlt'.
    exists [Invoke model_id prompt; Done (Failed msg)], msg.
    replace (Z.to_nat (max_retries - retries)) with 1%nat by lia.
    now repeat split.
Qed.

(** X10. When every invocation fails with an error that is not the
    inference-profile one, the judge makes exactly [max_retries]
    invocations, all with the primary model, sleeps two seconds between
    two of them and not after the last, and answers with zero scores and
    "Failed to evaluate: " followed by the last error. *)
Theorem judge_gives_up_after_max_retries
    (prompt_inputs : gmap string string) (max_retries : Z) (tr : trace) :
  (forall h m p, exists e, bedrock h m p = Failed e
                           /\ is_inference_profile_error e = false) ->
  1 <= max_retries ->
  exists ext e,
    call_bedrock_model bedrock exn_str prompt_inputs max_retries tr
    = ((tr ++ ext)%list, zero_score ("Failed to evaluate: " +:+ e) None)
    /\ invocations ext
       = List.map (fun m => Invoke m (prompt_of prompt_inputs))
           (replicate (Z.to_nat max_retries) BEDROCK_DEFAULT_MODEL)
    /\ List.filter is_sleep ext
       = replicate (Z.to_nat max_retries - 1) (Sleep 2)
    /\ last ext = Some (Done (Failed e)).
Proof.
  intros Hfail Hmax. unfold call_bedrock_model.
  destruct (retry_loop_always_failing (S (Z.to_nat max_retries)) max_retries 0
              BEDROCK_DEFAULT_MODEL (prompt_of prompt_inputs) tr Hfail)
    as (ext & e & -> & Hinv & Hsl & Hlast); [lia|lia|].
  exists ext, e. rewrite Z.sub_0_r in Hinv, Hsl. now repeat split.
Qed.

Lemma retry_loop_always_refused fuel max_retries retries model_id prompt tr :
  (forall h m p, exists e, bedrock h m p = Failed e
                           /\ is_inference_profile_error e = true) ->
  (Z.to_nat (max_retries - retries) < fuel)%nat ->
  exists ext,
    retry_loop bedrock fuel max_retries retries model_id prompt tr
    = ((tr ++ ext)%list, Exhausted)
    /\ invocations ext
       = List.map (fun m => Invoke m prompt)
           (match Z.to_nat (max_retries - retries) with
            | O => []
            | S n => model_id :: replicate n BEDROCK_FALLBACK_MODEL
            end)
    /\ List.filter is_sleep ext = [].
Proof.
  intros Hfail. revert retries model_id tr.
  induction fuel as [|fuel IH]; intros retries model_id tr Hfuel; [lia|].
  cbn [retry_loop]. destruct (retries <? max_retries) eqn:Hlt.
  2:{ apply Z.ltb_ge in Hlt. exists []. rewrite app_nil_r.
      replace (Z.to_nat (max_retries - retries)) with 0%nat by lia.
      now repeat split. }
  apply Z.ltb_lt in Hlt.
  destruct (Hfail tr model_id prompt) as (msg & -> & Hp). rewrite Hp.
  destruct (IH (retries + 1) BEDROCK_FALLBACK_MODEL
              (tr ++ [Invoke model_id prompt; Done (Failed msg)])%list)
    as (ext & -> & Hinv & Hsl); [lia|].
  exists ([Invoke model_id prompt; Done (Failed msg)] ++ ext)%list.
  rewrite <- app_assoc. split; [reflexivity|].
  rewrite invocations_app, List.filter_app, Hinv, Hsl.
  cbn [invocations List.filter is_invoke is_sleep app].
  replace (Z.to_nat (max_retries - retries))
    with (S (Z.to_nat (max_retries - (retries + 1)))) by lia.
  split; [|reflexivity]. cbn [List.map]. f_equal.
  destruct (Z.to_nat (max_retries - (retries + 1))); reflexivity.
Qed.

(** X11. When every invocation is refused with the inference-profile error, the
    judge makes exactly [max_retries] invocations, the first with the
    primary model and the others with the fallback model, never sleeps, and
    answers with zero scores and "Failed to get response from model". *)
Theorem judge_refused_by_both_models
    (prompt_inputs : gmap string string) (max_retries : Z) (tr : trace) :
  (forall h m p, exists e, bedrock h m p = Failed e
                           /\ is_inference_profile_error e = true) ->
  1 <= max_retries ->
  exists ext,
    call_bedrock_model bedrock exn_str prompt_inputs max_retries tr
    = ((tr ++ ext)%list, zero_score "Failed to get response from model" None)
    /\ invocations ext
       = List.map (fun m => Invoke m (prompt_of prompt_inputs))
           (BEDROCK_DEFAULT_MODEL
            :: replicate (Z.to_nat max_retries - 1) BEDROCK_FALLBACK_MODEL)
    /\ List.filter is_sleep ext = [].
Proof.
  intros Hfail Hmax. unfold call_bedrock_model.
  destruct (retry_loop_always_refused (S (Z.to_nat max_retries)) max_retries 0
              BEDROCK_DEFAULT_MODEL (prompt_of prompt_inputs) tr Hfail)
    as (ext & -> & Hinv & Hsl); [lia|].
  exists ext. rewrite Z.sub_0_r in Hinv.
  destruct (Z.to_nat max_retries) as [|n] eqn:En; [lia|].
  replace (S n - 1)%nat with n by lia. now repeat split.
Qed.

End InvokerMoreProofs.

Lemma judge_gives_up_after_max_retries_witness :
  exists ext,
    call_bedrock_model (fun _ _ _ => Failed "ThrottlingException")
      (fun _ => "") (build_judging_prompt "Q1" "Paris" "Paris") 3 []
    = (ext, zero_score "Failed to evaluate: ThrottlingException" None)
    /\ length (invocations ext) = 3%nat
    /\ List.filter is_sleep ext = [Sleep 2; Sleep 2].
Proof.
  destruct (judge_gives_up_after_max_retries
              (fun _ _ _ => Failed "ThrottlingException") (fun _ => "")
              (build_judging_prompt "Q1" "Paris" "Paris") 3 [])
    as (ext & e & Hcall & Hinv & Hsl & Hlast).
  - intros h m p. eexists. split; [reflexivity|]. vm_compute. reflexivity.
  - lia.
  - exists ext. rewrite Hcall, Hinv, Hsl. simpl app.
    assert (He : e = "ThrottlingException").
    { vm_compute in Hcall. injection Hcall as <- He.
      vm_compute in Hlast. congruence. }
    subst e. repeat split.
Defined.

Lemma judge_refused_by_both_models_witness :
  exists ext,
    call_bedrock_model
      (fun _ _ _ =>
         Failed "ValidationException: needs an inference profile")
      (fun _ => "") (build_judging_prompt "Q1" "Paris" "Paris") 3 []
    = (ext, zero_score "Failed to get response from model" None)
    /\ length (invocations ext) = 3%nat
    /\ List.filter is_sleep ext = [].
Proof.
  destruct (judge_refused_by_both_models
              (fun _ _ _ =>
                 Failed "ValidationException: needs an inference profile")
              (fun _ => "") (build_judging_prompt "Q1" "Paris" "Paris") 3 [])
    as (ext & Hcall & Hinv & Hsl).
  - intros h m p. eexists. split; [reflexivity|]. vm_compute. reflexivity.
  - lia.
  - exists ext. rewrite Hcall, Hinv, Hsl. repeat split.
Defined.

End InvokerMoreFacts.

(* ===================================================================== *)
(** * More on the scoring parser and the prompt *)
(* ===================================================================== *)

Module ParserMoreFacts.
Import PyStr PyStrFacts PyMore PyMoreFacts Evaluator ParserFacts.





(** X13. The prompt built for a question, a generated answer and a reference
    embeds the three texts trimmed, each one that is blank being replaced
    by its placeholder. *)
Theorem prompt_embeds_inputs (question generated reference : string) :
  prompt_of (build_judging_prompt question generated reference)
  = prompt_text
      (match strip question with
       | EmptyString => "Question not provided"
       | v => v
       end)
      (match strip generated with
       | EmptyString => "Generated answer not provided"
       | v => v
       end)
      (match strip reference with
       | EmptyString => "Expected answer not provided"
       | v => v
       end).
Proof.
  unfold prompt_of, prompt_field, build_judging_prompt.
  rewrite lookup_insert_eq.
  rewrite lookup_insert_ne, lookup_insert_eq by discriminate.
  rewrite !lookup_insert_ne, lookup_insert_eq by discriminate.
  reflexivity.
Qed.

End ParserMoreFacts.

(* ===================================================================== *)
(** * More on the metrics aggregator *)
(* ===================================================================== *)

Module MetricsMoreFacts.
Import PyStr Metrics MetricsFacts.

Lemma filter_idempotent {A} (p : A -> bool) (l : list A) :
  List.filter p (List.filter p l) = List.filter p l.
Proof.
  induction l as [|x l IH]; [reflexivity|]. simpl.
  destruct (p x) eqn:E; [|exact IH]. simpl. now rewrite E, IH.
Qed.

Lemma filter_length_perm {A} (p : A -> bool) (l l' : list A) :
  l ≡ₚ l' -> length (List.filter p l) = length (List.filter p l').
Proof.
  induction 1 as [|x l l' _ IH|x y l|l1 l2 l3 _ IH1 _ IH2];
    simpl; try reflexivity.
  - destruct (p x); simpl; now rewrite IH.
  - destruct (p x), (p y); reflexivity.
  - now rewrite IH1.
Qed.

Lemma filter_perm {A} (p : A -> bool) (l l' : list A) :
  l ≡ₚ l' -> List.filter p l ≡ₚ List.filter p l'.
Proof.
  induction 1 as [|x l l' _ IH|x y l|l1 l2 l3 _ IH1 _ IH2];
    simpl; try reflexivity.
  - destruct (p x); [now constructor|exact IH].
  - destruct (p x), (p y); try reflexivity. apply perm_swap.
  - now rewrite IH1.
Qed.

Lemma bins_of_ext (l l' : list Z) :
  (forall i, length (List.filter (fun s => s =? i) l)
             = length (List.filter (fun s => s =? i) l')) ->
  bins_of l = bins_of l'.
Proof.
  intros H. unfold bins_of. generalize (∅ : gmap Z nat).
  induction (seqZ 0 11) as [|i L IH]; intros m; [reflexivity|].
  cbn [fold_left]. now rewrite H, IH.
Qed.

Lemma bins_of_perm (l l' : list Z) : l ≡ₚ l' -> bins_of l = bins_of l'.
Proof. intros H. apply bins_of_ext. intros i. now apply filter_length_perm. Qed.


Section AggregatorMoreProofs.

Variable float : Type.
Variables np_mean np_median np_min np_max np_std : list Q -> float.

Let calculate_metrics :=
  Metrics.calculate_metrics float np_mean np_median np_min np_max np_std.

(** The result only depends on the evaluated records. *)
Lemma calculate_metrics_cases
    (evaluation_results : list JsonValidator.result_entry) :
  let ev := List.filter evaluated evaluation_results in
  calculate_metrics evaluation_results
  = match ev with
    | [] => Summary float 0 ∅ ∅
    | _ =>
        Summary float (length ev)
          (<["combined" :=
               stats_of float np_mean np_median np_min np_max np_std
                 (List.map (fun r => combined_score (accuracy_of r)
                                       (completeness_of r) (relevance_of r))
                    ev)]>
             (<["relevance" :=
                  stats_of float np_mean np_median np_min np_max np_std
                    (List.map inject_Z (List.map relevance_of ev))]>
                (<["completeness" :=
                     stats_of float np_mean np_median np_min np_max np_std
                       (List.map inject_Z (List.map completeness_of ev))]>
                   (<["accuracy" :=
                        stats_of float np_mean np_median np_min np_max np_std
                          (List.map inject_Z (List.map accuracy_of ev))]>
                      ∅))))
          (<["combined" :=
               bins_of (List.map py_round
                          (List.map (fun r => combined_score (accuracy_of r)
                                                (completeness_of r)
                                                (relevance_of r)) ev))]>
             (<["relevance" := bins_of (List.map relevance_of ev)]>
                (<["completeness" := bins_of (List.map completeness_of ev)]>
                   (<["accuracy" := bins_of (List.map accuracy_of ev)]> ∅))))
    end.
Proof.
  intros ev. subst ev. unfold calculate_metrics, Metrics.calculate_metrics.
  destruct evaluation_results as [|r0 rest]; [reflexivity|].
  rewrite collect_evaluated. cbn [app].
  remember (List.filter evaluated (r0 :: rest)) as ev eqn:Eev. clear Eev.
  destruct ev as [|e ev']; [reflexivity|].
  cbn [List.map].
  change (accuracy_of e :: List.map accuracy_of ev')
    with (List.map accuracy_of (e :: ev')).
  change (completeness_of e :: List.map completeness_of ev')
    with (List.map completeness_of (e :: ev')).
  change (relevance_of e :: List.map relevance_of ev')
    with (List.map relevance_of (e :: ev')).
  rewrite combined_of_map, length_map. reflexivity.
Qed.

(** X14. The records skipped for a timeout have no influence at all: removing
    them from the input gives the same result. *)
Theorem metrics_ignore_skipped_records
    (evaluation_results : list JsonValidator.result_entry) :
  calculate_metrics (List.filter evaluated evaluation_results)
  = calculate_metrics evaluation_results.
Proof.
  rewrite (calculate_metrics_cases evaluation_results).
  rewrite (calculate_metrics_cases (List.filter evaluated evaluation_results)).
  cbv zeta. now rewrite filter_idempotent.
Qed.

(** X15. The count and the histograms do not depend on the order of the
    records. *)
Theorem histograms_independent_of_order
    (results1 results2 : list JsonValidator.result_entry) :
  results1 ≡ₚ results2 ->
  count float (calculate_metrics results1)
  = count float (calculate_metrics results2)
  /\ distribution float (calculate_metrics results1)
     = distribution float (calculate_metrics results2).
Proof.
  intros Hperm.
  rewrite (calculate_metrics_cases results1), (calculate_metrics_cases results2).
  cbv zeta. pose proof (filter_perm evaluated _ _ Hperm) as Hev.
  destruct (List.filter evaluated results1) as [|e1 ev1] eqn:E1;
    destruct (List.filter evaluated results2) as [|e2 ev2] eqn:E2.
  - now split.
  - apply Permutation_nil in Hev. discriminate.
  - symmetry in Hev. apply Permutation_nil in Hev. discriminate.
  - cbn [count distribution]. split; [now apply Permutation_length|].
    assert (Hb : forall f : JsonValidator.result_entry -> Z,
              bins_of (List.map f (e1 :: ev1))
              = bins_of (List.map f (e2 :: ev2))).
    { intros f. apply bins_of_perm. now apply Permutation_map. }
    rewrite !List.map_map.
    now rewrite (Hb accuracy_of), (Hb completeness_of), (Hb relevance_of),
      (Hb (fun r => py_round (combined_score (accuracy_of r)
                                (completeness_of r) (relevance_of r)))).
Qed.


End AggregatorMoreProofs.

Lemma histograms_independent_of_order_witness :
  let r1 := JsonValidator.ResultEntry "Q1" "Paris" "Paris"
              (JsonValidator.Scores 9 8 10 "close match") in
  let r2 := JsonValidator.ResultEntry "Q2" "Berlin" "Bonn"
              (JsonValidator.Scores 2 5 7 "wrong city") in
  let np (scores : list Q) := tt in
  distribution unit (calculate_metrics unit np np np np np [r1; r2])
  = distribution unit (calculate_metrics unit np np np np np [r2; r1]).
Proof.
  intros r1 r2 np.
  apply (histograms_independent_of_order unit np np np np np [r1; r2]
           [r2; r1]).
  apply perm_swap.
Defined.


End MetricsMoreFacts.

(* ===================================================================== *)
(** * The summary report and the bands *)
(* ===================================================================== *)

Module SummaryFacts.
Import PyStr PyMore SummaryStatistics ScoreLevel.







(** X19. A higher score never gets a lower band. *)
Theorem score_level_monotone (s1 s2 : Q) :
  (s1 <= s2)%Q ->
  (rank (get_score_level s1) <= rank (get_score_level s2))%nat.
Proof.
  intros Hle. unfold get_score_level.
  destruct (Qle_bool 9 s1) eqn:A1; destruct (Qle_bool 9 s2) eqn:A2;
    destruct (Qle_bool 7 s1) eqn:B1; destruct (Qle_bool 7 s2) eqn:B2;
    destruct (Qle_bool 5 s1) eqn:C1; destruct (Qle_bool 5 s2) eqn:C2;
    destruct (Qle_bool 3 s1) eqn:D1; destruct (Qle_bool 3 s2) eqn:D2;
    try (cbn; lia);
    exfalso;
    repeat match goal with
           | H : Qle_bool _ _ = true |- _ => apply Qle_bool_iff in H
           | H : Qle_bool _ _ = false |- _ =>
               apply not_true_iff_false in H; rewrite Qle_bool_iff in H
           end;
    match goal with
    | H : ~ (_ <= _)%Q |- _ => apply H; lra
    end.
Qed.


Lemma score_level_monotone_witness :
  (rank (get_score_level (7 # 2)) <= rank (get_score_level 9))%nat.
Proof.
  apply (score_level_monotone (7 # 2) 9). unfold Qle. cbn. lia.
Defined.

End SummaryFacts.

(* ===================================================================== *)
(** * More on the generation stage *)
(* ===================================================================== *)

Module GenerationMoreFacts.
Import PyStr PyStrFacts PyMoreFacts ResponseGenerator GenerationFacts.

Lemma contains_app_l needle a b :
  contains needle a = true -> contains needle (a +:+ b) = true.
Proof.
  induction a as [|c a IH].
  - cbn [contains]. rewrite orb_false_r. intros H.
    destruct (prefix_app_inv _ _ H) as [r Hr].
    destruct needle; [|discriminate]. now destruct b.
  - rewrite append_cons, !contains_cons. intros [H|H]%orb_prop.
    + change (String c (a +:+ b)) with (String c a +:+ b).
      now rewrite (prefix_app_mono _ _ _ H).
    + rewrite (IH H). apply orb_true_r.
Qed.

Lemma rstrip_prefix s : exists ws, s = rstrip s +:+ ws.
Proof.
  induction s as [|c s IH]; [now exists ""|].
  destruct IH as [ws Hws]. cbn [rstrip].
  destruct (rstrip s) as [|d r] eqn:E.
  - destruct (is_space c); [now exists (String c s)|].
    exists ws. rewrite append_cons. now f_equal.
  - exists ws. rewrite append_cons. now f_equal.
Qed.

Lemma contains_lstrip needle s :
  contains needle (lstrip s) = true -> contains needle s = true.
Proof.
  induction s as [|c s IH]; [trivial|]. cbn [lstrip].
  destruct (is_space c); [|trivial].
  intros H. rewrite contains_cons, (IH H). apply orb_true_r.
Qed.

Lemma contains_rstrip needle s :
  contains needle (rstrip s) = true -> contains needle s = true.
Proof.
  intros H. destruct (rstrip_prefix s) as [ws Hws]. rewrite Hws.
  now apply contains_app_l.
Qed.

Lemma before_prefix sep s : exists r, s = before sep s +:+ r.
Proof.
  induction s as [|c s IH].
  - cbn [before]. destruct (String.prefix sep ""); now exists "".
  - cbn [before]. destruct (String.prefix sep (String c s));
      [now exists (String c s)|].
    destruct IH as [r Hr]. exists r. rewrite append_cons. now f_equal.
Qed.

Lemma before_absent sep s : contains sep s = false -> before sep s = s.
Proof.
  induction s as [|c s IH].
  - cbn [contains before]. now destruct (String.prefix sep "").
  - rewrite contains_cons. intros [H1 H2]%orb_false_elim.
    cbn [before]. rewrite H1. now rewrite (IH H2).
Qed.

(** The text before the first occurrence of a separator has no occurrence
    of it. *)
Lemma before_free sep s : sep <> "" -> contains sep (before sep s) = false.
Proof.
  intros Hsep.
  assert (Hnil : String.prefix sep "" = false) by now destruct sep.
  induction s as [|c s IH].
  - cbn [before]. rewrite Hnil. cbn [contains]. now rewrite Hnil.
  - cbn [before]. destruct (String.prefix sep (String c s)) eqn:E.
    + cbn [contains]. now rewrite Hnil.
    + rewrite contains_cons, IH, orb_false_r.
      destruct (String.prefix sep (String c (before sep s))) eqn:E';
        [|reflexivity].
      destruct (before_prefix sep s) as [r Hr].
      apply (prefix_app_mono _ _ r) in E'.
      rewrite append_cons, <- Hr in E'. congruence.
Qed.

Section GenerationMoreProofs.

Variable invoke_lambda : nat -> Py.value -> lambda_reply.
Variable json_error : string -> error_lookup.
Variable worker_fault : nat -> option string.
Variable write_json_to_s3 : list (gmap string Py.value) -> bool.

Lemma invoke_ordinary_payload i question raw_answer :
  invoke_lambda i question = Payload raw_answer ->
  contains "errorType" raw_answer = false ->
  invoke_retrieval_lambda invoke_lambda json_error i question
  = (raw_answer, strip (before "<sessionId>" raw_answer)).
Proof.
  intros Hreply Herr. unfold invoke_retrieval_lambda. rewrite Hreply, Herr.
  cbn [andb]. destruct raw_answer as [|c r]; [reflexivity|].
  destruct (contains "<sessionId>" (String c r)) eqn:E; [reflexivity|].
  now rewrite (before_absent _ _ E).
Qed.

(** X20. A payload that does not mention "errorType" is returned verbatim as
    the raw answer; the extracted answer is the text before the first
    "<sessionId>", trimmed: it has no surrounding white space and no
    session marker. *)
Theorem ordinary_payload_answer (i : nat) (question : Py.value)
    (raw_answer : string) :
  invoke_lambda i question = Payload raw_answer ->
  contains "errorType" raw_answer = false ->
  exists extracted_answer,
    invoke_retrieval_lambda invoke_lambda json_error i question
    = (raw_answer, extracted_answer)
    /\ extracted_answer = strip (before "<sessionId>" raw_answer)
    /\ strip extracted_answer = extracted_answer
    /\ contains "<sessionId>" extracted_answer = false.
Proof.
  intros Hreply Herr. eexists.
  split; [now apply invoke_ordinary_payload|]. split; [reflexivity|].
  split; [apply strip_idempotent|].
  destruct (contains "<sessionId>" (strip (before "<sessionId>" raw_answer)))
    eqn:E; [|reflexivity].
  apply contains_rstrip, contains_lstrip in E.
  now rewrite before_free in E.
Qed.

(** X21. The endpoint wrapper always returns a pair of texts.  Either the raw
    answer is the payload verbatim and the extracted answer is the trimmed
    text before the session marker; or the two are the same message: the
    timeout message, or a text that starts with "Error: " or with
    "Error invoking Lambda: ". *)
Theorem retrieval_outcomes (i : nat) (question : Py.value) :
  exists raw_answer extracted_answer,
    invoke_retrieval_lambda invoke_lambda json_error i question
    = (raw_answer, extracted_answer)
    /\ ((invoke_lambda i question = Payload raw_answer
         /\ extracted_answer = strip (before "<sessionId>" raw_answer))
        \/ (raw_answer = extracted_answer
            /\ (extracted_answer = TIMEOUT_MESSAGE
                \/ startswith extracted_answer "Error: " = true
                \/ startswith extracted_answer "Error invoking Lambda: "
                   = true))).
Proof.
  unfold invoke_retrieval_lambda, startswith. cbv zeta.
  destruct (invoke_lambda i question) as [raw|e] eqn:Hreply.
  2:{ eexists _, _. split; [reflexivity|]. right. split; [reflexivity|].
      right. right. apply prefix_app_self. }
  destruct (contains "errorType" raw && contains "Sandbox.Timedout" raw).
  { eexists _, _. split; [reflexivity|]. right. split; [reflexivity|].
    now left. }
  destruct raw as [|c r].
  { exists "", "". split; [reflexivity|]. left. now split. }
  assert (Hext : (if contains "<sessionId>" (String c r)
                  then strip (before "<sessionId>" (String c r))
                  else strip (String c r))
                 = strip (before "<sessionId>" (String c r))).
  { destruct (contains "<sessionId>" (String c r)) eqn:E; [reflexivity|].
    now rewrite (before_absent _ _ E). }
  rewrite Hext.
  destruct (contains "errorType" (String c r)
            && contains "errorMessage" (String c r)).
  2:{ eexists _, _. split; [reflexivity|]. left. now split. }
  destruct (json_error (String c r)) as [| |text|e];
    eexists _, _; (split; [reflexivity|]).
  - left. now split.
  - left. now split.
  - right. split; [reflexivity|]. right. left. apply prefix_app_self.
  - right. split; [reflexivity|]. right. right. apply prefix_app_self.
Qed.

(** X22. Whatever the order of completion, the generation stage keeps the
    number and the order of the items, changes no field of an item other
    than "Generated Answer", leaves the items for which no task completed
    as they were, and gives every other item a dictionary with a raw and a
    text response. *)
Theorem generation_keeps_other_fields
    (input_data : list (gmap string Py.value)) (order : list nat) :
  input_data <> [] ->
  exists final,
    process_input_json invoke_lambda json_error worker_fault write_json_to_s3
      (Some input_data) order
    = (write_json_to_s3 final, Some final)
    /\ length final = length input_data
    /\ (forall j key,
          key <> "Generated Answer" ->
          final !! j ≫= (fun item => item !! key)
          = input_data !! j ≫= (fun item => item !! key))
    /\ (forall j, j ∉ order -> final !! j = input_data !! j)
    /\ forall j item,
         j ∈ order -> input_data !! j = Some item ->
         exists raw_response text_response,
           final !! j
           = Some (<["Generated Answer" :=
                       generated_answer raw_response text_response]> item).
Proof.
  intros Hdata.
  exists (collect invoke_lambda json_error worker_fault input_data order
            input_data).
  split; [destruct input_data; [congruence|reflexivity]|].
  split; [apply collect_length|]. split; [|split].
  - intros j key Hkey. rewrite collect_lookup.
    destruct (decide (j ∈ order)); [|reflexivity].
    destruct (input_data !! j) as [item|]; [|reflexivity].
    cbn. now rewrite lookup_insert_ne by congruence.
  - intros j Hj. rewrite collect_lookup.
    now destruct (decide (j ∈ order)).
  - intros j item Hj Hitem. rewrite collect_lookup, Hitem.
    destruct (decide (j ∈ order)); [|contradiction].
    unfold answer_for. destruct (result_of _ _ _ _ _); cbn; eauto.
Qed.

End GenerationMoreProofs.

Lemma ordinary_payload_answer_witness :
  exists extracted_answer,
    invoke_retrieval_lambda Samples.sample_lambda (fun _ => NotJson) 0
      (Py.VStr "Q1")
    = ("Rome<sessionId>42", extracted_answer)
    /\ extracted_answer = strip (before "<sessionId>" "Rome<sessionId>42")
    /\ strip extracted_answer = extracted_answer
    /\ contains "<sessionId>" extracted_answer = false.
Proof.
  apply (ordinary_payload_answer Samples.sample_lambda (fun _ => NotJson) 0
           (Py.VStr "Q1") "Rome<sessionId>42"); reflexivity.
Defined.

Lemma generation_keeps_other_fields_witness :
  exists final,
    process_input_json Samples.sample_lambda (fun _ => NotJson)
      Samples.sample_fault (fun _ => true) (Some Samples.sample_items)
      [2; 0]%nat
    = (true, Some final)
    /\ length final = 3%nat
    /\ final !! 1%nat = Some (<["Expected Answer" := Py.VStr "nothing to ask"]> ∅).
Proof.
  destruct (generation_keeps_other_fields Samples.sample_lambda
              (fun _ => NotJson) Samples.sample_fault (fun _ => true)
              Samples.sample_items [2; 0]%nat)
    as (final & Hrun & Hlen & _ & Hout & _); [discriminate|].
  exists final. split; [exact Hrun|]. split; [exact Hlen|].
  rewrite Hout; [reflexivity|]. vm_compute.
  intros H. repeat (apply elem_of_cons in H as [H|H]; [discriminate|]).
  now apply elem_of_nil in H.
Defined.

End GenerationMoreFacts.

(* ===================================================================== *)
(** * From the generation stage to the reports *)
(* ===================================================================== *)

Module PipelineFacts.
Import PyStr PyStrFacts PyMoreFacts GenerationFacts GenerationMoreFacts.

Section PipelineProofs.

Variable invoke_lambda : nat -> Py.value -> ResponseGenerator.lambda_reply.
Variable json_error : string -> ResponseGenerator.error_lookup.
Variable worker_fault : nat -> option string.
Variable bedrock : trace -> string -> string -> outcome.
Variable exn_str : exn -> string.
Variable repr : Py.value -> string.

Let answer_for :=
  ResponseGenerator.answer_for invoke_lambda json_error worker_fault.

(** What the judging stage reads back from an answer stored by the
    generation stage. *)
Lemma stored_answer_read_back (item : gmap string Py.value) raw text :
  JsonValidator.text_response_of repr
    (<["Generated Answer" := ResponseGenerator.generated_answer raw text]>
       item)
  = strip text.
Proof.
  unfold JsonValidator.text_response_of. rewrite lookup_insert_eq.
  unfold ResponseGenerator.generated_answer. cbn [from_option id].
  unfold Py.text_field.
  rewrite lookup_insert_ne by done. rewrite lookup_insert_eq.
  cbn [from_option id]. now destruct text.
Qed.

Lemma stored_fields_kept (item : gmap string Py.value) answer :
  JsonValidator.question_of repr (<["Generated Answer" := answer]> item)
  = JsonValidator.question_of repr item
  /\ JsonValidator.expected_answer_of repr
       (<["Generated Answer" := answer]> item)
     = JsonValidator.expected_answer_of repr item
  /\ JsonValidator.judged repr (<["Generated Answer" := answer]> item)
     = JsonValidator.judged repr item.
Proof.
  unfold JsonValidator.judged, JsonValidator.question_of,
    JsonValidator.expected_answer_of, Py.text_field.
  rewrite !lookup_insert_ne by done. auto.
Qed.

Lemma answer_for_cases original i :
  answer_for original i
  = match worker_fault i with
    | Some e => ResponseGenerator.generated_answer ("Error: " +:+ e) ""
    | None =>
        let question :=
          default Py.VNone
            (original !! i ≫= (fun item => item !! "Question")) in
        let answer :=
          ResponseGenerator.invoke_retrieval_lambda invoke_lambda json_error
            i question in
        ResponseGenerator.generated_answer (fst answer) (snd answer)
    end.
Proof.
  unfold answer_for, ResponseGenerator.answer_for,
    ResponseGenerator.result_of.
  destruct (worker_fault i); [reflexivity|].
  now destruct (ResponseGenerator.invoke_retrieval_lambda _ _ _ _).
Qed.

(** X23. The judging stage reads an item written by the generation stage with
    the question and the expected answer it had, and as generated answer
    the extracted answer of its task, trimmed: the empty string when the
    task failed, and the text before the session marker for an ordinary
    payload. *)
Theorem judge_reads_stored_text
    (original : list (gmap string Py.value)) (i : nat)
    (item : gmap string Py.value) :
  original !! i = Some item ->
  let stored := <["Generated Answer" := answer_for original i]> item in
  let question := default Py.VNone (item !! "Question") in
  JsonValidator.text_response_of repr stored
  = match worker_fault i with
    | Some _ => ""
    | None =>
        strip (snd (ResponseGenerator.invoke_retrieval_lambda invoke_lambda
                      json_error i question))
    end
  /\ JsonValidator.question_of repr stored
     = JsonValidator.question_of repr item
  /\ JsonValidator.expected_answer_of repr stored
     = JsonValidator.expected_answer_of repr item
  /\ JsonValidator.judged repr stored = JsonValidator.judged repr item
  /\ forall raw_answer,
       worker_fault i = None ->
       invoke_lambda i question = ResponseGenerator.Payload raw_answer ->
       contains "errorType" raw_answer = false ->
       JsonValidator.text_response_of repr stored
       = strip (ResponseGenerator.before "<sessionId>" raw_answer).
Proof.
  intros Hitem stored question. subst stored.
  destruct (stored_fields_kept item (answer_for original i))
    as (Hq & He & Hj).
  split; [|split; [exact Hq|split; [exact He|split; [exact Hj|]]]].
  - rewrite answer_for_cases, Hitem. cbn [mbind option_bind].
    fold question.
    destruct (worker_fault i); cbv zeta; now rewrite stored_answer_read_back.
  - intros raw_answer Hfault Hreply Herr.
    rewrite answer_for_cases, Hitem, Hfault. cbn [mbind option_bind].
    fold question. cbv zeta. rewrite stored_answer_read_back.
    rewrite (invoke_ordinary_payload _ _ _ _ _ Hreply Herr). cbn [snd].
    apply strip_idempotent.
Qed.

(** X24. A sandbox timeout of the generation endpoint is carried through the
    three stages: the stored text is the timeout message, the judging stage
    records the item with zero scores without invoking the judge, and both
    reports count the record as a timeout and leave it out of the
    scores. *)
Theorem lambda_timeout_end_to_end
    (original : list (gmap string Py.value)) (i : nat)
    (item : gmap string Py.value) (raw_answer : string) (tr : trace) :
  original !! i = Some item ->
  worker_fault i = None ->
  invoke_lambda i (default Py.VNone (item !! "Question"))
  = ResponseGenerator.Payload raw_answer ->
  contains "errorType" raw_answer = true ->
  contains "Sandbox.Timedout" raw_answer = true ->
  let stored := <["Generated Answer" := answer_for original i]> item in
  JsonValidator.judged repr item = true ->
  exists r,
    JsonValidator.process_entry bedrock exn_str repr stored tr = (tr, Some r)
    /\ JsonValidator.question r = JsonValidator.question_of repr item
    /\ JsonValidator.generated_answer r = ResponseGenerator.TIMEOUT_MESSAGE
    /\ JsonValidator.text_response_evaluation r
       = JsonValidator.Scores 0 0 0 JsonValidator.SKIPPED_JUSTIFICATION
    /\ Metrics.evaluated r = false
    /\ SummaryStatistics.is_timeout r = true.
Proof.
  intros Hitem Hfault Hreply Herr Htimeout stored Hjudged. subst stored.
  destruct (stored_fields_kept item (answer_for original i))
    as (Hq & He & Hj).
  unfold JsonValidator.process_entry. rewrite Hj, Hjudged, Hq, He.
  cbn [negb]. cbv iota.
  rewrite answer_for_cases, Hitem, Hfault. cbn [mbind option_bind].
  cbv zeta.
  rewrite (timeout_reply_gives_message _ _ _ _ _ Hreply Herr Htimeout).
  cbn [fst snd]. rewrite stored_answer_read_back.
  change (strip ResponseGenerator.TIMEOUT_MESSAGE)
    with ResponseGenerator.TIMEOUT_MESSAGE.
  unfold JsonValidator.judge.
  change (contains JsonValidator.TIMEOUT_MARKER
            ResponseGenerator.TIMEOUT_MESSAGE) with true.
  cbv iota. eexists. split; [reflexivity|]. now repeat split.
Qed.

End PipelineProofs.

Lemma judge_reads_stored_text_witness :
  JsonValidator.text_response_of (fun _ => "")
    (<["Generated Answer" :=
         ResponseGenerator.answer_for Samples.sample_lambda
           (fun _ => ResponseGenerator.NotJson) Samples.sample_fault
           Samples.sample_items 2]>
       (<["Question" := Py.VStr "Q3"]> ∅))
  = "Rome".
Proof.
  destruct (judge_reads_stored_text Samples.sample_lambda
              (fun _ => ResponseGenerator.NotJson) Samples.sample_fault
              (fun _ => "") Samples.sample_items 2
              (<["Question" := Py.VStr "Q3"]> ∅) eq_refl)
    as (H & _).
  rewrite H. vm_compute. reflexivity.
Defined.

Lemma lambda_timeout_end_to_end_witness :
  exists r,
    JsonValidator.process_entry Samples.steady_judge (fun _ => "")
      (fun _ => "")
      (<["Generated Answer" :=
           ResponseGenerator.answer_for
             (fun _ _ =>
                ResponseGenerator.Payload
                  "{'errorType': 'Sandbox.Timedout'}")
             (fun _ => ResponseGenerator.NotJson) (fun _ => None)
             [Samples.sample_entry "Q1" "Paris" ""] 0]>
         (Samples.sample_entry "Q1" "Paris" "")) []
    = ([], Some r)
    /\ Metrics.evaluated r = false
    /\ SummaryStatistics.is_timeout r = true.
Proof.
  destruct (lambda_timeout_end_to_end
              (fun _ _ =>
                 ResponseGenerator.Payload
                   "{'errorType': 'Sandbox.Timedout'}")
              (fun _ => ResponseGenerator.NotJson) (fun _ => None)
              Samples.steady_judge (fun _ => "") (fun _ => "")
              [Samples.sample_entry "Q1" "Paris" ""] 0
              (Samples.sample_entry "Q1" "Paris" "")
              "{'errorType': 'Sandbox.Timedout'}" [])
    as (r & Hrun & _ & _ & _ & Hev & Hto);
    try reflexivity; try (vm_compute; reflexivity).
  exists r. now repeat split.
Defined.

End PipelineFacts.

(* ===================================================================== *)
(** * More on the judging stage *)
(* ===================================================================== *)

Module JudgingMoreFacts.
Import PyStr PyStrFacts PyMoreFacts InvokerFacts InvokerMoreFacts
  JsonValidator JudgingFacts.

Section JudgingMoreProofs.

Variable bedrock : trace -> string -> string -> outcome.
Variable exn_str : exn -> string.
Variable repr : Py.value -> string.
Variable write_json_to_s3 : list result_entry -> bool.






(** X26. Every record of the written artifact has a question and an expected
    answer that are not empty, and its three texts are trimmed. *)
Theorem written_records_wellformed (data : list (gmap string Py.value))
    (results : list result_entry) :
  written (process_json_data bedrock exn_str repr write_json_to_s3
             (Some data)) = Some results ->
  Forall (fun r =>
            question r <> "" /\ expected_answer r <> ""
            /\ strip (question r) = question r
            /\ strip (expected_answer r) = expected_answer r
            /\ strip (generated_answer r) = generated_answer r) results.
Proof.
  unfold process_json_data. destruct data as [|entry data]; [discriminate|].
  destruct (judge_entries_spec bedrock exn_str repr (entry :: data) [] [])
    as (ext & new & -> & _ & Hnew).
  cbn [app]. intros Hw.
  assert (results = new) as -> by (destruct (write_json_to_s3 new);
                                   cbn in Hw; congruence).
  clear Hw.
  assert (Hj : Forall (fun e => judged repr e = true)
                 (List.filter (judged repr) (entry :: data))).
  { apply List.Forall_forall. intros e He.
    now apply List.filter_In in He as [_ He]. }
  revert Hj. induction Hnew as [|e r es rs (Hq & He & Hg) _ IH];
    intros Hj; [constructor|].
  apply Forall_cons in Hj as [Hje Hj]. constructor; [|now apply IH].
  apply andb_prop in Hje as [H1 H2].
  rewrite Hq, He, Hg. repeat split.
  - intros E. now rewrite E in H1.
  - intros E. now rewrite E in H2.
  - apply strip_idempotent.
  - apply strip_idempotent.
  - unfold text_response_of.
    destruct (default (Py.VDict ∅) (e !! "Generated Answer"));
      apply strip_idempotent.
Qed.

End JudgingMoreProofs.

Lemma written_records_wellformed_witness :
  Forall (fun r =>
            question r <> "" /\ expected_answer r <> ""
            /\ strip (question r) = question r
            /\ strip (expected_answer r) = expected_answer r
            /\ strip (generated_answer r) = generated_answer r)
    [ResultEntry "Q1" "Paris is the capital" "Paris"
       (Scores 9 8 10 "close match")].
Proof.
  apply (written_records_wellformed Samples.steady_judge (fun _ => "")
           (fun _ => "") (fun _ => true)
           [Samples.sample_entry " Q1 " "Paris is the capital" "Paris ";
            Samples.sample_entry "Q2" "" "Berlin"]).
  vm_compute. reflexivity.
Defined.

End JudgingMoreFacts.

(* ===================================================================== *)
(** * Cleaning the cells of the spreadsheet *)
(* ===================================================================== *)

Module ExcelFacts.
Import PyStr PyStrFacts PyMoreFacts ExcelProcessor.

Lemma replace_crlf_hit s :
  replace CRLF NL (String CR (String Evaluator.LF s))
  = String Evaluator.LF (replace CRLF NL s).
Proof.
  unfold replace. rewrite replace_from_cons.
  replace (String.prefix CRLF (String CR (String Evaluator.LF s))) with true.
  - reflexivity.
  - symmetry. apply (prefix_app_self CRLF s).
Qed.

Lemma replace_crlf_miss c s :
  String.prefix CRLF (String c s) = false ->
  replace CRLF NL (String c s) = String c (replace CRLF NL s).
Proof. intros H. unfold replace. now rewrite replace_from_cons, H. Qed.

Lemma prefix_crlf_head c s :
  is_space c = false -> String.prefix CRLF (String c s) = false.
Proof.
  intros Hc. unfold CRLF. cbn [String.prefix].
  destruct (ascii_dec CR c) as [<-|]; [|reflexivity].
  vm_compute in Hc. discriminate Hc.
Qed.

Lemma prefix_crlf_inv c s :
  String.prefix CRLF (String c s) = true ->
  c = CR /\ exists s', s = String Evaluator.LF s'.
Proof.
  intros [r Hr]%prefix_app_inv. unfold CRLF in Hr.
  rewrite !append_cons in Hr. injection Hr as -> ->. eauto.
Qed.

Lemma replace_crlf_nonempty s : s <> "" -> replace CRLF NL s <> "".
Proof.
  destruct s as [|c s]; [congruence|]. intros _.
  destruct (String.prefix CRLF (String c s)) eqn:E.
  - apply prefix_crlf_inv in E as [-> [s' ->]].
    rewrite replace_crlf_hit. discriminate.
  - rewrite (replace_crlf_miss _ _ E). discriminate.
Qed.

Lemma rstrip_cons_inv c s :
  rstrip (String c s) = String c s ->
  (s = "" /\ is_space c = false) \/ (s <> "" /\ rstrip s = s).
Proof.
  cbn [rstrip]. destruct (rstrip s) as [|d r] eqn:E.
  - destruct (is_space c) eqn:Hc; [discriminate|]. intros [= <-]. now left.
  - intros [= <-]. right. now split.
Qed.

Lemma rstrip_cons_intro c s :
  rstrip s = s -> s <> "" -> rstrip (String c s) = String c s.
Proof.
  intros H Hne. cbn [rstrip]. rewrite H. now destruct s.
Qed.

(** Replacing CR LF by LF in a text that does not end with white space
    gives a text that does not end with white space. *)
Lemma rstrip_replace_crlf n :
  forall s, (String.length s <= n)%nat -> rstrip s = s ->
            rstrip (replace CRLF NL s) = replace CRLF NL s.
Proof.
  induction n as [|n IH]; intros s Hlen Hs.
  { destruct s; [reflexivity|simpl in Hlen; lia]. }
  destruct s as [|c s]; [reflexivity|]. simpl in Hlen.
  destruct (String.prefix CRLF (String c s)) eqn:E.
  - apply prefix_crlf_inv in E as [-> [s' ->]]. rewrite replace_crlf_hit.
    apply rstrip_cons_inv in Hs as [[Hs _]|[_ Hs]]; [discriminate|].
    apply rstrip_cons_inv in Hs as [[_ Hs]|[Hne Hs]];
      [vm_compute in Hs; discriminate|].
    apply rstrip_cons_intro; [|now apply replace_crlf_nonempty].
    apply IH; [simpl in Hlen; lia|exact Hs].
  - rewrite (replace_crlf_miss _ _ E).
    apply rstrip_cons_inv in Hs as [[-> Hc]|[Hne Hs]].
    + change (replace CRLF NL "") with "". cbn [rstrip]. now rewrite Hc.
    + apply rstrip_cons_intro; [|now apply replace_crlf_nonempty].
      apply IH; [lia|exact Hs].
Qed.

(** X27. A text cell is cleaned to a text without surrounding white space, so
    that the judging stage, which trims the fields it reads, reads the
    cleaned text as it is. *)
Theorem cleaned_text_is_trimmed (s : string) :
  exists r,
    clean_value (Text s) = Text r
    /\ strip r = r
    /\ forall repr (entry : gmap string Py.value) key,
         entry !! key = Some (Py.VStr r) ->
         Py.text_field repr entry key = r.
Proof.
  exists (replace CRLF NL (strip s)). split; [reflexivity|].
  assert (Ht : strip (replace CRLF NL (strip s)) = replace CRLF NL (strip s)).
  { pose proof (strip_head s) as Hh.
    assert (Hr : rstrip (strip s) = strip s)
      by (unfold strip; apply rstrip_idempotent).
    set (t := strip s) in *. clearbody t. unfold strip.
    assert (Hl : lstrip (replace CRLF NL t) = replace CRLF NL t).
    { destruct t as [|c t]; [reflexivity|].
      rewrite (replace_crlf_miss _ _ (prefix_crlf_head _ _ Hh)).
      cbn [lstrip]. now rewrite Hh. }
    rewrite Hl. now apply (rstrip_replace_crlf (String.length t)). }
  split; [exact Ht|].
  intros repr entry key Hkey. unfold Py.text_field. rewrite Hkey.
  cbn [from_option id]. set (r := replace CRLF NL (strip s)) in *.
  clearbody r. destruct r as [|c r]; [reflexivity|exact Ht].
Qed.

End ExcelFacts.
